(** * Feature categorisation, shuffled baseline and model persistence of
      [1.regression_modelling/scripts/1.train_models.py]

    The script is a linear notebook.  Its repository-specific logic is
    the loop that sorts the columns of the training table into three
    lists ([nucleus_features], [a647_features], [gold_features]), the
    generation of the shuffled predictor matrix, and the three training
    loops that fit and write the models.  The column names are Python
    [str] values; they are modelled as Rocq strings (the markers and the
    separator are ASCII, so searching and splitting agree on the UTF-8
    bytes of a name). *)

From Stdlib Require Import String Ascii Bool Arith Lia.
From stdpp Require Import base list strings.

Open Scope string_scope.
Open Scope list_scope.

(** ** Python string primitives used by the script *)

(** [column.startswith(prefix)] *)
Definition startswith (s pre : string) : bool := String.prefix pre s.

(** [needle in s]: [needle] occurs in [s] as a contiguous substring. *)
Fixpoint contains (needle s : string) : bool :=
  String.prefix needle s ||
  match s with
  | EmptyString => false
  | String _ rest => contains needle rest
  end.

(** [s.split(sep)] for a one-character separator: never the empty list,
    adjacent separators give empty parts. *)
Fixpoint split (s : string) (sep : ascii) : list string :=
  match s with
  | EmptyString => [EmptyString]
  | String c rest =>
      if Ascii.eqb c sep then EmptyString :: split rest sep
      else match split rest sep with
           | [] => [String c EmptyString]
           | p :: ps => String c p :: ps
           end
  end.

Definition underscore : ascii := "_"%char.

(** ** Exceptions *)

Inductive exn : Set := IndexError | KeyError | ValueError | OSError.

Inductive result (A : Type) : Type :=
| Ok (a : A)
| Raise (e : exn).
Arguments Ok {A} a.
Arguments Raise {A} e.

Definition bind {A B} (m : result A) (k : A -> result B) : result B :=
  match m with
  | Ok a => k a
  | Raise e => Raise e
  end.

Declare Scope py_scope.
Delimit Scope py_scope with py.
Notation "'let*' x ':=' m 'in' k" := (bind m (fun x => k))
  (at level 10, x name, m at level 100, k at level 200) : py_scope.
Open Scope py_scope.

(** [parts[i]] *)
Definition getitem (parts : list string) (i : nat) : result string :=
  match parts !! i with
  | Some p => Ok p
  | None => Raise IndexError
  end.

(** [needle in parts[i]] *)
Definition in_item (needle : string) (parts : list string) (i : nat) : result bool :=
  let* p := getitem parts i in Ok (contains needle p).

(** [parts[i] == s] *)
Definition item_eq (parts : list string) (i : nat) (s : string) : result bool :=
  let* p := getitem parts i in Ok (String.eqb p s).

(** [a and b], [a or b]: the right operand is evaluated only when the
    left one does not decide. *)
Definition py_and (a b : result bool) : result bool :=
  let* x := a in if x then b else Ok false.
Definition py_or (a b : result bool) : result bool :=
  let* x := a in if x then Ok true else b.

(** [len(parts) > n] *)
Definition len_gt (parts : list string) (n : nat) : result bool :=
  Ok (Nat.ltb n (length parts)).

(** [if c: t else: e] with a test that may raise *)
Definition cond {A} (c : result bool) (t e : result A) : result A :=
  let* x := c in if x then t else e.

(** ** The three feature lists *)

Record feature_lists : Type := mk_lists {
  nucleus_features : list string;
  a647_features : list string;
  gold_features : list string
}.

Definition no_features : feature_lists := mk_lists [] [] [].

(** [nucleus_features.append(column)] and its two siblings *)
Definition append_nucleus (column : string) (st : feature_lists) : feature_lists :=
  mk_lists (nucleus_features st ++ [column]) (a647_features st) (gold_features st).
Definition append_a647 (column : string) (st : feature_lists) : feature_lists :=
  mk_lists (nucleus_features st) (a647_features st ++ [column]) (gold_features st).
Definition append_gold (column : string) (st : feature_lists) : feature_lists :=
  mk_lists (nucleus_features st) (a647_features st) (gold_features st ++ [column]).

(** ** The categorisation loop (lines 71-101) *)

(** The body of [for column in training_df.columns], on the current
    lists. *)
Definition categorize_column (column : string) (st : feature_lists)
  : result feature_lists :=
  if negb (startswith column "Metadata_") then
    let parts := split column underscore in
    cond (in_item "Correlation" parts 1)
      (if contains "DAPI" column then
         cond (py_and (len_gt parts 4)
                 (py_or (in_item "A647" parts 3) (in_item "A647" parts 4)))
           (Ok (append_a647 column st))
           (cond (py_and (len_gt parts 4)
                    (py_or (in_item "GOLD" parts 3) (in_item "GOLD" parts 4)))
              (Ok (append_gold column st))
              (Ok st))
       else
         cond (py_and (len_gt parts 3) (in_item "A647" parts 3))
           (Ok (append_a647 column st))
           (cond (py_and (len_gt parts 3) (in_item "GOLD" parts 3))
              (Ok (append_gold column st))
              (Ok st)))
      (cond (py_and (len_gt parts 4) (in_item "Location" parts 1))
         (cond (item_eq parts 4 "DAPI")
            (Ok (append_nucleus column st))
            (cond (item_eq parts 4 "A647")
               (Ok (append_a647 column st))
               (cond (item_eq parts 4 "GOLD")
                  (Ok (append_gold column st))
                  (Ok st))))
         (cond (py_and (len_gt parts 3) (in_item "DAPI" parts 3))
            (Ok (append_nucleus column st))
            (cond (py_and (len_gt parts 3) (in_item "A647" parts 3))
               (Ok (append_a647 column st))
               (cond (py_and (len_gt parts 3) (in_item "GOLD" parts 3))
                  (Ok (append_gold column st))
                  (Ok (append_nucleus column st))))))
  else Ok st.

(** How the loop ends: it ran over every column, or an exception left
    the script with the lists as they were when it was raised. *)
Inductive outcome : Type :=
| Finished (st : feature_lists)
| Aborted (e : exn) (st : feature_lists).

Fixpoint categorize_from (columns : list string) (st : feature_lists) : outcome :=
  match columns with
  | [] => Finished st
  | column :: rest =>
      match categorize_column column st with
      | Ok st' => categorize_from rest st'
      | Raise e => Aborted e st
      end
  end.

(** Lines 66-101: the lists start empty. *)
Definition categorize (columns : list string) : outcome :=
  categorize_from columns no_features.

Definition lists_of (o : outcome) : feature_lists :=
  match o with
  | Finished st => st
  | Aborted _ st => st
  end.

(** ** Reading the loop body as a decision

    Each iteration appends the column to at most one list.  [group_of]
    reads that decision off the body run on empty lists, and [place]
    replays it on any lists. *)

Inductive group : Set := Nucleus | TargetA | TargetB.

Definition place (g : option group) (column : string) (st : feature_lists)
  : feature_lists :=
  match g with
  | Some Nucleus => append_nucleus column st
  | Some TargetA => append_a647 column st
  | Some TargetB => append_gold column st
  | None => st
  end.

Definition observe (st : feature_lists) : option group :=
  match st with
  | mk_lists (_ :: _) _ _ => Some Nucleus
  | mk_lists [] (_ :: _) _ => Some TargetA
  | mk_lists [] [] (_ :: _) => Some TargetB
  | mk_lists [] [] [] => None
  end.

Definition group_of (column : string) : result (option group) :=
  let* st := categorize_column column no_features in Ok (observe st).

Definition group_eqb (g h : group) : bool :=
  match g, h with
  | Nucleus, Nucleus | TargetA, TargetA | TargetB, TargetB => true
  | _, _ => false
  end.

(** The column is appended to the list of group [g]. *)
Definition placed_in (g : group) (column : string) : bool :=
  match group_of column with
  | Ok (Some h) => group_eqb g h
  | _ => false
  end.

(** The column is skipped by the [Metadata_] test of line 72. *)
Definition is_metadata (column : string) : bool := startswith column "Metadata_".

(** The column passes the [Metadata_] test and the body ends without
    appending it anywhere. *)
Definition is_dropped (column : string) : bool :=
  negb (is_metadata column) &&
  match group_of column with
  | Ok None => true
  | _ => false
  end.

(** The columns the loop gets through: all of them, or those before the
    first one whose body raises. *)
Fixpoint processed (columns : list string) : list string :=
  match columns with
  | [] => []
  | column :: rest =>
      match group_of column with
      | Ok _ => column :: processed rest
      | Raise _ => []
      end
  end.

(** The lists [st] followed, list by list, by the lists [d]. *)
Definition extend (st d : feature_lists) : feature_lists :=
  mk_lists (nucleus_features st ++ nucleus_features d)
    (a647_features st ++ a647_features d)
    (gold_features st ++ gold_features d).

(** The outcome of a loop that started from [st], given its outcome
    from empty lists. *)
Definition resume (st : feature_lists) (o : outcome) : outcome :=
  match o with
  | Finished d => Finished (extend st d)
  | Aborted e d => Aborted e (extend st d)
  end.

(** ** The rules in the words of the specification

    Parts are numbered from 0.  [part_has parts i m]: part [i] exists
    and contains the marker [m]; [part_is parts i m]: part [i] exists
    and equals [m]. *)

Definition part_has (parts : list string) (i : nat) (m : string) : bool :=
  match parts !! i with
  | Some p => contains m p
  | None => false
  end.

Definition part_is (parts : list string) (i : nat) (m : string) : bool :=
  match parts !! i with
  | Some p => String.eqb p m
  | None => false
  end.

(** Step 2 of the algorithm: a column whose part 1 contains the
    correlation marker. *)
Definition spec_correlation_rule (column : string) : option group :=
  let parts := split column underscore in
  if contains "DAPI" column then
    if Nat.leb 5 (length parts) then
      if part_has parts 3 "A647" || part_has parts 4 "A647" then Some TargetA
      else if part_has parts 3 "GOLD" || part_has parts 4 "GOLD" then Some TargetB
      else None
    else None
  else
    if Nat.leb 4 (length parts) then
      if part_has parts 3 "A647" then Some TargetA
      else if part_has parts 3 "GOLD" then Some TargetB
      else None
    else None.

(** Step 3, first case: a location column with at least five parts is
    placed by its part 4, compared for equality. *)
Definition spec_location_rule (p4 : string) : option group :=
  if String.eqb p4 "DAPI" then Some Nucleus
  else if String.eqb p4 "A647" then Some TargetA
  else if String.eqb p4 "GOLD" then Some TargetB
  else None.

(** What a column that a rule sends to [g] (or nowhere) adds to the
    list of the group [h]: itself when [g] is [h], nothing otherwise. *)
Definition addition (g : option group) (h : group) (column : string)
  : list string :=
  match g with
  | Some k => if group_eqb k h then [column] else []
  | None => []
  end.

(** The columns that the specification's algorithm leaves in no group:
    not metadata, and either a correlation column whose rule of step 2
    finds no target marker, or a location column with at least five
    parts whose part 4 is none of the three markers. *)
Definition dropped_by_branch (column : string) : bool :=
  let parts := split column underscore in
  negb (startswith column "Metadata_") &&
  (if part_has parts 1 "Correlation" then
     match spec_correlation_rule column with
     | None => true
     | Some _ => false
     end
   else
     part_has parts 1 "Location" && Nat.leb 5 (length parts) &&
     negb (part_is parts 4 "DAPI" || part_is parts 4 "A647" ||
           part_is parts 4 "GOLD")).

(** Where the specification sends a column that matches no marker rule:
    nowhere for a correlation column and for a location column with at
    least five parts, to Nucleus otherwise. *)
Definition fallback_group (column : string) : option group :=
  let parts := split column underscore in
  if part_has parts 1 "Correlation" then None
  else if part_has parts 1 "Location" && Nat.leb 5 (length parts) then None
  else Some Nucleus.

(** Some marker test of the algorithm applies to the column and finds
    its marker: steps 2 and 3, each test with the guard on the number of
    parts that the algorithm gives it. *)
Definition marker_rule_matches (column : string) : bool :=
  let parts := split column underscore in
  if part_has parts 1 "Correlation" then
    if contains "DAPI" column then
      Nat.leb 5 (length parts) &&
      (part_has parts 3 "A647" || part_has parts 4 "A647" ||
       part_has parts 3 "GOLD" || part_has parts 4 "GOLD")
    else
      Nat.leb 4 (length parts) &&
      (part_has parts 3 "A647" || part_has parts 3 "GOLD")
  else if part_has parts 1 "Location" && Nat.leb 5 (length parts) then
    part_is parts 4 "DAPI" || part_is parts 4 "A647" || part_is parts 4 "GOLD"
  else
    Nat.leb 4 (length parts) &&
    (part_has parts 3 "DAPI" || part_has parts 3 "A647" || part_has parts 3 "GOLD").

(** ** Tables (the part of pandas the script uses)

    A frame is its row count and its labelled columns, in order.  Column
    labels of a frame are distinct, so [df[label]] is one column. *)

Section Frames.
Context {value : Type}.

Record DataFrame : Type := mk_frame {
  n_rows : nat;
  frame_columns : list (string * list value)
}.

(** [df.columns] *)
Definition column_names (df : DataFrame) : list string :=
  map fst (frame_columns df).

(** [df.shape] *)
Definition shape (df : DataFrame) : nat * nat :=
  (n_rows df, length (frame_columns df)).

(** [df[label]] for one label *)
Definition getcol (df : DataFrame) (label : string) : result (list value) :=
  match List.find (fun c => String.eqb (fst c) label) (frame_columns df) with
  | Some c => Ok (snd c)
  | None => Raise KeyError
  end.

Fixpoint getcols (df : DataFrame) (labels : list string)
  : result (list (string * list value)) :=
  match labels with
  | [] => Ok []
  | label :: rest =>
      let* x := getcol df label in
      let* cols := getcols df rest in
      Ok ((label, x) :: cols)
  end.

(** [df[labels]] for a list of labels: a new frame *)
Definition select (df : DataFrame) (labels : list string) : result DataFrame :=
  let* cols := getcols df labels in Ok (mk_frame (n_rows df) cols).

(** [df.copy()]: a frame with buffers of its own, so that the in-place
    shuffle below does not reach the frame it was copied from. *)
Definition copy (df : DataFrame) : DataFrame := df.

(** ** [np.random.shuffle]

    The legacy generator walks the array from its last position down
    to position 1 and swaps position [i] with a position drawn from
    [0..i].  [random_interval s m] is the generator's draw from
    [0..m] in state [s], with the state that follows. *)

(** [x[i], x[j] = x[j], x[i]]; both positions exist when the draw is
    within its interval. *)
Definition swap (x : list value) (i j : nat) : list value :=
  match x !! i, x !! j with
  | Some a, Some b => <[i := b]> (<[j := a]> x)
  | _, _ => x
  end.

Context {rng : Type} (random_interval : rng -> nat -> nat * rng).

Fixpoint shuffle_from (i : nat) (x : list value) (s : rng) : list value * rng :=
  match i with
  | 0 => (x, s)
  | S i' =>
      let (j, s') := random_interval s i in
      shuffle_from i' (swap x i j) s'
  end.

Definition np_random_shuffle (x : list value) (s : rng) : list value * rng :=
  shuffle_from (length x - 1) x s.
End Frames.
Arguments DataFrame value : clear implicits.

(** ** Paths (the part of pathlib the script uses)

    A pure POSIX path is a root and its segments; joining parses the
    right operand, drops its empty and [.] segments, and lets a rooted
    right operand replace the left one. *)

Definition slash : ascii := "/"%char.

Record PurePath : Type := mk_path {
  root : string;
  path_parts : list string
}.

Definition keep_segment (seg : string) : bool :=
  negb (String.eqb seg "") && negb (String.eqb seg ".").

Definition root_of (s : string) : string :=
  if startswith s "//" && negb (startswith s "///") then "//"
  else if startswith s "/" then "/"
  else "".

(** [pathlib.Path(s)] *)
Definition parse_path (s : string) : PurePath :=
  mk_path (root_of s) (List.filter keep_segment (split s slash)).

(** [p / s] *)
Definition joinpath (p : PurePath) (s : string) : PurePath :=
  let q := parse_path s in
  if String.eqb (root q) "" then mk_path (root p) (path_parts p ++ path_parts q)
  else q.

(** [str(p)] *)
Definition path_str (p : PurePath) : string :=
  match path_parts p with
  | [] => if String.eqb (root p) "" then "." else root p
  | _ => root p +:+ String.concat "/" (path_parts p)
  end.

(** Lines 43-54 *)
Definition model_dir : PurePath := parse_path "./models".
Definition final_dir : PurePath := joinpath model_dir "final".
Definition shuffled_dir : PurePath := joinpath model_dir "shuffled_baseline".
Definition all_features_dir : PurePath := joinpath model_dir "all_features".

(** ** The run of the script

    The script's effects are the draws from numpy's global generator,
    the hyperparameter searches, and the files it writes.  A run threads
    the generator state and a log of these effects; an exception ends it
    with the log as it stands. *)

Section Script.
Context {value rng Model : Type}.

(** Which of the two searches of an iteration a fit belongs to:
    [random_search] or [random_search_shuffled]. *)
Inductive condition : Set := RealData | ShuffledData.

(** The [y] of a fit: a frame (combined models) or one column. *)
Inductive target : Type :=
| Matrix (y_matrix : DataFrame value)
| Vector (y : list value).

Inductive event : Type :=
| NpShuffle (shuffled : list value)
| YamlDump (features_dict : feature_lists)
| Fit (c : condition) (predictors : DataFrame value) (y : target)
| JoblibDump (model : Model) (filename : PurePath).

Record world : Type := mk_world {
  rng_state : rng;
  log : list event
}.

Definition script (A : Type) : Type := world -> world * result A.

Definition ret {A} (a : A) : script A := fun w => (w, Ok a).

Definition raise {A} (e : exn) : script A := fun w => (w, Raise e).

Definition sbind {A B} (m : script A) (k : A -> script B) : script B :=
  fun w =>
    match m w with
    | (w', Ok a) => k a w'
    | (w', Raise e) => (w', Raise e)
    end.

Definition lift {A} (r : result A) : script A := fun w => (w, r).

Definition emit (e : event) : script unit :=
  fun w => (mk_world (rng_state w) (log w ++ [e]), Ok tt).

Fixpoint for_each {A} (l : list A) (body : A -> script unit) : script unit :=
  match l with
  | [] => ret tt
  | a :: rest => sbind (body a) (fun _ => for_each rest body)
  end.

Context (random_interval : rng -> nat -> nat * rng).

(** [np.random.shuffle(x)], on the global generator *)
Definition shuffle_values (x : list value) : script (list value) :=
  fun w =>
    let (x', s') := np_random_shuffle random_interval x (rng_state w) in
    (mk_world s' (log w ++ [NpShuffle x']), Ok x').

(** Lines 109-110: every column of [X_shuffled] is shuffled in place. *)
Fixpoint shuffle_columns (cols : list (string * list value))
  : script (list (string * list value)) :=
  match cols with
  | [] => ret []
  | (col, x) :: rest =>
      sbind (shuffle_values x) (fun x' =>
      sbind (shuffle_columns rest) (fun rest' =>
      ret ((col, x') :: rest')))
  end.

(** Lines 108-110 *)
Definition generate_shuffled (X : DataFrame value) : script (DataFrame value) :=
  let X_shuffled := copy X in
  sbind (shuffle_columns (frame_columns X_shuffled)) (fun cols =>
  ret (mk_frame (n_rows X_shuffled) cols)).

(** [RandomizedSearchCV(logreg, **random_search_params).fit(X, y)]
    followed by [.best_estimator_]: the search is scikit-learn's and is
    seeded on its own; it reads its arguments and may raise. *)
Context (search_fit : DataFrame value -> target -> result Model).

Definition fit (c : condition) (X : DataFrame value) (y : target) : script Model :=
  sbind (emit (Fit c X y)) (fun _ => lift (search_fit X y)).

(** The outcome of writing [model] to [filename]: the file system's
    answer to [joblib.dump], which raises when it cannot write (a
    missing directory, no permission, ...). *)
Context (dump_io : Model -> PurePath -> result unit).

(** [joblib.dump(model, filename)]: the file is in the log when the
    write went through; otherwise the exception ends the run. *)
Definition joblib_dump (model : Model) (filename : PurePath) : script unit :=
  sbind (lift (dump_io model filename)) (fun _ =>
  emit (JoblibDump model filename)).

(** Body of the loop of lines 180-203 *)
Definition train_combined (training_df X X_shuffled : DataFrame value)
    (stain : string * list string) : script unit :=
  let (stain_name, feature_list) := stain in
  sbind (lift (select training_df feature_list)) (fun y_matrix =>
  sbind (fit RealData X (Matrix y_matrix)) (fun best =>
  sbind (joblib_dump best
           (joinpath all_features_dir
              ("combined_" +:+ stain_name +:+ "_tuned_model.joblib"))) (fun _ =>
  sbind (fit ShuffledData X_shuffled (Matrix y_matrix)) (fun best_shuffled =>
  joblib_dump best_shuffled
    (joinpath all_features_dir
       ("combined_" +:+ stain_name +:+ "_shuffled_tuned_model.joblib")))))).

(** Body of the loops of lines 216-238 and 248-269 *)
Definition train_individual (training_df X X_shuffled : DataFrame value)
    (feature : string) : script unit :=
  sbind (lift (getcol training_df feature)) (fun y =>
  sbind (fit RealData X (Vector y)) (fun best =>
  sbind (joblib_dump best
           (joinpath final_dir (feature +:+ "_tuned_model.joblib"))) (fun _ =>
  sbind (fit ShuffledData X_shuffled (Vector y)) (fun best_shuffled =>
  joblib_dump best_shuffled
    (joinpath shuffled_dir (feature +:+ "_shuffled_tuned_model.joblib")))))).

(** Lines 177-269, once the lists and the two matrices exist *)
Definition train_all (training_df X X_shuffled : DataFrame value)
    (lists : feature_lists) : script unit :=
  let stain_feature_sets :=
    [("A647", a647_features lists); ("GOLD", gold_features lists)] in
  sbind (for_each stain_feature_sets (train_combined training_df X X_shuffled))
    (fun _ =>
  sbind (for_each (a647_features lists) (train_individual training_df X X_shuffled))
    (fun _ =>
  for_each (gold_features lists) (train_individual training_df X X_shuffled))).

(** The script from line 66 on, for a loaded table.  The write of
    [features_dict.yml] (lines 112-124) is recorded as the event
    [YamlDump]; the steps that can raise are the categorisation, the
    column lookups, the searches and the dumps of the models. *)
Definition main (training_df : DataFrame value) : script unit :=
  match categorize (column_names training_df) with
  | Aborted e _ => raise e
  | Finished lists =>
      sbind (lift (select training_df (nucleus_features lists))) (fun X =>
      sbind (generate_shuffled X) (fun X_shuffled =>
      sbind (emit (YamlDump lists)) (fun _ =>
      train_all training_df X X_shuffled lists)))
  end.

(** The files written by [joblib.dump], in order. *)
Definition dumped_files (l : list event) : list string :=
  flat_map (fun e => match e with
                     | JoblibDump _ filename => [path_str filename]
                     | _ => []
                     end) l.

Definition is_fit (e : event) : bool :=
  match e with Fit _ _ _ => true | _ => false end.

Definition is_shuffle (e : event) : bool :=
  match e with NpShuffle _ => true | _ => false end.

Definition is_shuffled_fit (e : event) : bool :=
  match e with Fit ShuffledData _ _ => true | _ => false end.

(** The number of fits of [random_search_shuffled] in a log. *)
Definition shuffled_fits (l : list event) : nat :=
  length (List.filter is_shuffled_fit l).

(** What an event of the training loops may be, given the two
    matrices: no draw from the generator, and a fit on [X_shuffled]
    for the shuffled search, on [X] for the other. *)
Definition training_event (X X_shuffled : DataFrame value) (e : event) : Prop :=
  is_shuffle e = false /\
  forall c predictors y,
    e = Fit c predictors y ->
    predictors = match c with ShuffledData => X_shuffled | RealData => X end.

(** A fragment of the training loops: it only appends training events
    to the log, leaves the generator alone, and when it returns it has
    written [files] and run [n] shuffled fits. *)
Definition run_spec {A} (X X_shuffled : DataFrame value)
    (files : list string) (n : nat) (m : script A) : Prop :=
  forall w, exists suffix,
    log (m w).1 = log w ++ suffix /\
    rng_state (m w).1 = rng_state w /\
    Forall (training_event X X_shuffled) suffix /\
    (forall a, (m w).2 = Ok a ->
       dumped_files suffix = files /\ shuffled_fits suffix = n).

(** The two files of an individual target and of a stain. *)
Definition individual_files (feature : string) : list string :=
  [path_str (joinpath final_dir (feature +:+ "_tuned_model.joblib"));
   path_str (joinpath shuffled_dir (feature +:+ "_shuffled_tuned_model.joblib"))].

Definition combined_files (stain : string * list string) : list string :=
  [path_str (joinpath all_features_dir
               ("combined_" +:+ fst stain +:+ "_tuned_model.joblib"));
   path_str (joinpath all_features_dir
               ("combined_" +:+ fst stain +:+ "_shuffled_tuned_model.joblib"))].
End Script.
Arguments event value Model : clear implicits.
Arguments world value rng Model : clear implicits.
Arguments target value : clear implicits.


(** The number of searches in a log. *)
Definition fits {value Model : Type} (l : list (event value Model)) : nat :=
  length (List.filter is_fit l).

(** ** The training loops as one sequence of jobs

    Each iteration of a training loop looks its target up and then runs
    two jobs, a search on [X] and a search on [X_shuffled], each followed
    by the dump of the model it returned.  [run_steps] runs such a
    sequence until a lookup, a search or a dump raises. *)

Section Steps.
Context {value Model : Type}.
Context (search_fit : DataFrame value -> target value -> result Model).
Context (dump_io : Model -> PurePath -> result unit).

Record job : Type := mk_job {
  job_condition : condition;
  job_predictors : DataFrame value;
  job_target : target value;
  job_file : PurePath
}.

Inductive step : Type :=
| Job (j : job)
| Stop (e : exn).

Fixpoint run_steps (steps : list step) : list (event value Model) * result unit :=
  match steps with
  | [] => ([], Ok tt)
  | Stop e :: _ => ([], Raise e)
  | Job j :: rest =>
      match search_fit (job_predictors j) (job_target j) with
      | Ok best =>
          match dump_io best (job_file j) with
          | Ok _ =>
              let (l, r) := run_steps rest in
              (Fit (job_condition j) (job_predictors j) (job_target j)
                 :: JoblibDump best (job_file j) :: l, r)
          | Raise e =>
              ([Fit (job_condition j) (job_predictors j) (job_target j)], Raise e)
          end
      | Raise e =>
          ([Fit (job_condition j) (job_predictors j) (job_target j)], Raise e)
      end
  end.

Definition is_job (s : step) : Prop :=
  match s with Job _ => True | Stop _ => False end.

(** The files of the jobs of a step sequence, in order. *)
Definition step_files (steps : list step) : list string :=
  flat_map (fun s => match s with
                     | Job j => [path_str (job_file j)]
                     | Stop _ => []
                     end) steps.

(** The steps of one iteration of the loop of lines 180-203. *)
Definition combined_steps (training_df X X_shuffled : DataFrame value)
    (stain : string * list string) : list step :=
  match select training_df (snd stain) with
  | Ok y_matrix =>
      [Job (mk_job RealData X (Matrix y_matrix)
              (joinpath all_features_dir
                 ("combined_" +:+ fst stain +:+ "_tuned_model.joblib")));
       Job (mk_job ShuffledData X_shuffled (Matrix y_matrix)
              (joinpath all_features_dir
                 ("combined_" +:+ fst stain +:+ "_shuffled_tuned_model.joblib")))]
  | Raise e => [Stop e]
  end.

(** The steps of one iteration of the loops of lines 216-238 and
    248-269. *)
Definition individual_steps (training_df X X_shuffled : DataFrame value)
    (feature : string) : list step :=
  match getcol training_df feature with
  | Ok y =>
      [Job (mk_job RealData X (Vector y)
              (joinpath final_dir (feature +:+ "_tuned_model.joblib")));
       Job (mk_job ShuffledData X_shuffled (Vector y)
              (joinpath shuffled_dir (feature +:+ "_shuffled_tuned_model.joblib")))]
  | Raise e => [Stop e]
  end.

(** The steps of the three loops, in the order of the script. *)
Definition all_steps (training_df X X_shuffled : DataFrame value)
    (lists : feature_lists) : list step :=
  flat_map (combined_steps training_df X X_shuffled)
    [("A647", a647_features lists); ("GOLD", gold_features lists)] ++
  flat_map (individual_steps training_df X X_shuffled) (a647_features lists) ++
  flat_map (individual_steps training_df X X_shuffled) (gold_features lists).
End Steps.

(** The world [w] after the events [run.1], with the result [run.2]. *)
Definition after {value rng Model A : Type} (w : world value rng Model)
    (run : list (event value Model) * result A)
  : world value rng Model * result A :=
  (mk_world (rng_state w) (log w ++ run.1), run.2).

(** Every column of the frame has one value per row. *)
Definition well_formed {value : Type} (df : DataFrame value) : Prop :=
  Forall (fun c => length (snd c) = n_rows df) (frame_columns df).

(** The target has [n] rows (and, for a matrix, one value per row in
    every column). *)
Definition aligned {value : Type} (n : nat) (y : target value) : Prop :=
  match y with
  | Matrix y_matrix => n_rows y_matrix = n /\ well_formed y_matrix
  | Vector y => length y = n
  end.

(** A written file lies in the directory of the combined models. *)
Definition under_all_features (filename : string) : bool :=
  startswith filename "models/all_features/".

(** ** A small run, for evaluation

    A table of three rows, a generator that counts its draws, and a
    search that always returns. *)

Definition counter_interval (s m : nat) : nat * nat := (s mod S m, S s).

Definition always_fit (X : DataFrame nat) (y : target nat) : result unit := Ok tt.

(** A file system that takes every write. *)
Definition always_dump (model : unit) (filename : PurePath) : result unit := Ok tt.

(** A file system in which the directory [models/final] is missing:
    writing there raises, writing elsewhere goes through. *)
Definition final_dir_missing (model : unit) (filename : PurePath) : result unit :=
  match path_parts filename with
  | "models" :: "final" :: _ => Raise OSError
  | _ => Ok tt
  end.



Definition example_table : DataFrame nat :=
  mk_frame 3 [("Metadata_Well", [0; 0; 0]);
              ("Cells_AreaShape_DAPI", [1; 2; 3]);
              ("Nuclei_Intensity_Mean_A647", [4; 5; 6]);
              ("Nuclei_Location_Center_GOLD", [7; 8; 9])].

(** A search that returns on the combined targets and raises on the
    individual ones. *)
Definition fails_on_columns (X : DataFrame nat) (y : target nat) : result unit :=
  match y with
  | Matrix _ => Ok tt
  | Vector _ => Raise ValueError
  end.

(** A table of a single row. *)
Definition one_row_table : DataFrame nat :=
  mk_frame 1 [("Cells_AreaShape_DAPI", [1]); ("Cells_Intensity_Mean_DAPI", [2])].

(** * Proofs *)

(** ** Facts about the string primitives *)

Lemma split_nonempty (s : string) (sep : ascii) : split s sep <> [].
Proof.
  destruct s as [|c rest]; simpl; [discriminate|].
  destruct (Ascii.eqb c sep); [discriminate|].
  destruct (split rest sep); discriminate.
Qed.

Lemma sep_prefix (sep c : ascii) (rest : string) :
  String.prefix (String sep EmptyString) (String c rest) = Ascii.eqb c sep.
Proof.
  simpl. destruct (ascii_dec sep c) as [->|Hne].
  - rewrite Ascii.eqb_refl. destruct rest; reflexivity.
  - symmetry. apply Ascii.eqb_neq. congruence.
Qed.

Lemma split_single_iff (s : string) (sep : ascii) :
  length (split s sep) < 2 <-> contains (String sep EmptyString) s = false.
Proof.
  induction s as [|c rest IH].
  - simpl. split; [reflexivity | lia].
  - cbn [contains split]. rewrite sep_prefix.
    pose proof (split_nonempty rest sep) as Hn.
    destruct (Ascii.eqb c sep); simpl.
    + destruct (split rest sep); [congruence|]. simpl. split; [lia | discriminate].
    + destruct (split rest sep) as [|p ps]; [congruence|]. exact IH.
Qed.

Lemma split_no_sep (s : string) (sep : ascii) :
  contains (String sep EmptyString) s = false -> split s sep = [s].
Proof.
  induction s as [|c rest IH]; [reflexivity|].
  cbn [contains split]. rewrite sep_prefix.
  destruct (Ascii.eqb c sep); simpl; [discriminate|].
  intros H. rewrite (IH H). reflexivity.
Qed.

(** ** The loop body as a decision *)

Ltac split_tests :=
  repeat match goal with
         | |- context [if ?b then _ else _] => destruct b eqn:?
         end.

Ltac open_body :=
  unfold categorize_column, cond, py_and, py_or, in_item, item_eq, len_gt,
    getitem, bind.

(** The body run on any lists appends what the body run on empty lists
    appends. *)
Lemma categorize_column_place (column : string) (st : feature_lists) :
  categorize_column column st = let* g := group_of column in Ok (place g column st).
Proof.
  unfold group_of. open_body.
  destruct (negb (startswith column "Metadata_")); [|reflexivity].
  generalize (contains "DAPI" column) as dapi.
  generalize (split column underscore) as parts.
  intros [|p0 [|p1 [|p2 [|p3 [|p4 rest]]]]] dapi; cbn; split_tests; reflexivity.
Qed.

Lemma group_of_metadata (column : string) :
  is_metadata column = true -> group_of column = Ok None.
Proof.
  unfold is_metadata, group_of, categorize_column. intros ->. reflexivity.
Qed.

(** The only exception of the body is the [IndexError] of [parts[1]] on
    a name with a single part; the later subscripts are all guarded. *)
Lemma group_of_raises_iff (column : string) (e : exn) :
  group_of column = Raise e <->
  e = IndexError /\ is_metadata column = false /\
  length (split column underscore) < 2.
Proof.
  unfold group_of, is_metadata. open_body.
  destruct (startswith column "Metadata_"); simpl.
  { split; [discriminate | intros (_ & ? & _); discriminate]. }
  generalize (contains "DAPI" column) as dapi.
  generalize (split_nonempty column underscore).
  generalize (split column underscore) as parts.
  intros [|p0 [|p1 [|p2 [|p3 [|p4 rest]]]]] Hne dapi; [congruence|..];
    cbn; split_tests;
    (split; [intros H; inversion H; subst; simpl; repeat split; lia
            | intros (-> & _ & H); simpl in H; first [reflexivity | lia]]).
Qed.

Lemma group_of_ok_iff (column : string) :
  (exists g, group_of column = Ok g) <->
  (is_metadata column = false -> 2 <= length (split column underscore)).
Proof.
  destruct (group_of column) as [g|e] eqn:Hg.
  - split; [|eauto]. intros _ Hm.
    destruct (le_lt_dec 2 (length (split column underscore))) as [|Hlt]; [assumption|].
    assert (group_of column = Raise IndexError) as Hr
      by (apply group_of_raises_iff; auto).
    congruence.
  - apply group_of_raises_iff in Hg as (_ & Hm & Hlen).
    split; [intros [g Hg]; discriminate | intros H; specialize (H Hm); lia].
Qed.

(** ** The loop as three filters *)

Lemma placed_in_ok (h : group) (column : string) (g : option group) :
  group_of column = Ok g ->
  placed_in h column = if g is Some k then group_eqb h k else false.
Proof. unfold placed_in. intros ->. reflexivity. Qed.

Lemma place_lists (g : option group) (column : string) (st : feature_lists) :
  place g column st =
  mk_lists
    (nucleus_features st ++ (if g is Some Nucleus then [column] else []))
    (a647_features st ++ (if g is Some TargetA then [column] else []))
    (gold_features st ++ (if g is Some TargetB then [column] else [])).
Proof.
  destruct st, g as [[]|]; unfold place, append_nucleus, append_a647, append_gold;
    simpl; rewrite ?app_nil_r; reflexivity.
Qed.

(** Each list is the filter of the processed columns by its group, in
    the order of the table. *)
Lemma categorize_from_lists (columns : list string) (st : feature_lists) :
  lists_of (categorize_from columns st) =
  mk_lists
    (nucleus_features st ++ List.filter (placed_in Nucleus) (processed columns))
    (a647_features st ++ List.filter (placed_in TargetA) (processed columns))
    (gold_features st ++ List.filter (placed_in TargetB) (processed columns)).
Proof.
  revert st. induction columns as [|column rest IH]; intros st; simpl.
  - destruct st; simpl; rewrite !app_nil_r; reflexivity.
  - rewrite categorize_column_place.
    destruct (group_of column) as [g|e] eqn:Hg; simpl.
    + rewrite IH, place_lists, !(placed_in_ok _ _ _ Hg). simpl.
      destruct g as [[]|]; simpl; rewrite <- ?app_assoc, ?app_nil_r; reflexivity.
    + destruct st; simpl; rewrite !app_nil_r; reflexivity.
Qed.

Lemma categorize_from_finished (columns : list string) (st st' : feature_lists) :
  categorize_from columns st = Finished st' -> processed columns = columns.
Proof.
  revert st. induction columns as [|column rest IH]; intros st; simpl; [reflexivity|].
  rewrite categorize_column_place.
  destruct (group_of column) as [g|e]; simpl; [|discriminate].
  intros H. f_equal. eapply IH, H.
Qed.

Lemma categorize_from_finished_iff (columns : list string) (st : feature_lists) :
  (exists st', categorize_from columns st = Finished st') <->
  Forall (fun c => exists g, group_of c = Ok g) columns.
Proof.
  revert st. induction columns as [|column rest IH]; intros st; simpl.
  - split; eauto.
  - rewrite categorize_column_place, Forall_cons.
    destruct (group_of column) as [g|e]; simpl.
    + rewrite IH. split; [eauto | tauto].
    + split; [intros [st' H]; discriminate | intros [[g H] _]; discriminate].
Qed.

Lemma categorize_from_aborted (columns : list string) (st st' : feature_lists) (e : exn) :
  categorize_from columns st = Aborted e st' ->
  exists column, In column columns /\ group_of column = Raise e.
Proof.
  revert st. induction columns as [|column rest IH]; intros st; simpl; [discriminate|].
  rewrite categorize_column_place.
  destruct (group_of column) as [g|e'] eqn:Hg; simpl.
  - intros H. destruct (IH _ H) as (c & Hin & Hc). eauto.
  - intros H. inversion H; subst. eauto.
Qed.

Lemma placed_in_unique (g h : group) (column : string) :
  placed_in g column = true -> placed_in h column = true -> g = h.
Proof.
  unfold placed_in. destruct (group_of column) as [[k|]|]; try discriminate.
  destruct g, h, k; simpl; congruence.
Qed.

Lemma processed_incl (columns : list string) (column : string) :
  In column (processed columns) -> In column columns.
Proof.
  induction columns as [|c rest IH]; simpl; [tauto|].
  destruct (group_of c); simpl; tauto.
Qed.

(** A finished loop sends every column to exactly one of five places. *)
Lemma five_way_partition (columns : list string) :
  Forall (fun c => exists g, group_of c = Ok g) columns ->
  Permutation columns
    (List.filter (placed_in Nucleus) columns ++
     List.filter (placed_in TargetA) columns ++
     List.filter (placed_in TargetB) columns ++
     List.filter is_metadata columns ++
     List.filter is_dropped columns).
Proof.
  induction 1 as [|c rest [g Hg] _ IH]; simpl; [constructor|].
  rewrite !(placed_in_ok _ _ _ Hg). unfold is_dropped at 1. rewrite Hg.
  assert (g <> None -> is_metadata c = false) as Hm.
  { intros Hn. destruct (is_metadata c) eqn:Hm; [|reflexivity].
    rewrite (group_of_metadata _ Hm) in Hg. congruence. }
  destruct g as [[]|]; simpl; rewrite ?Hm by discriminate; simpl.
  - constructor. exact IH.
  - apply Permutation_cons_app, IH.
  - rewrite app_assoc. apply Permutation_cons_app.
    rewrite <- app_assoc. exact IH.
  - destruct (is_metadata c); simpl.
    + rewrite 2!app_assoc. apply Permutation_cons_app.
      rewrite <- !app_assoc. exact IH.
    + rewrite 3!app_assoc. apply Permutation_cons_app.
      rewrite <- !app_assoc. exact IH.
Qed.

(** ** The categorisation claims *)

(** C1 (as the code has it).  On the table with columns
    [Metadata_Well], [Nuclei_Correlation_DAPI_A647],
    [Nuclei_Location_Center_GOLD], [Cells_AreaShape_DAPI] the loop
    finishes with Nucleus = [Cells_AreaShape_DAPI], Target-B =
    [Nuclei_Location_Center_GOLD] and an empty Target-A list: the
    correlation column names the nuclear stain and has only four parts,
    so the five-part guard of line 77 leaves it in no group.  The
    metadata column is in no group. *)
Theorem scenario_four_columns :
  let columns := ["Metadata_Well"; "Nuclei_Correlation_DAPI_A647";
                  "Nuclei_Location_Center_GOLD"; "Cells_AreaShape_DAPI"] in
  categorize columns
  = Finished (mk_lists ["Cells_AreaShape_DAPI"] [] ["Nuclei_Location_Center_GOLD"])
  /\ is_dropped "Nuclei_Correlation_DAPI_A647" = true
  /\ length (split "Nuclei_Correlation_DAPI_A647" underscore) = 4
  /\ (forall g, placed_in g "Metadata_Well" = false).
Proof.
  repeat split; vm_compute; reflexivity.
Qed.

(** C1, the scenario as the specification states it, fails: the loop
    does not produce Target-A = [Nuclei_Correlation_DAPI_A647]; its
    Target-A list is empty. *)
Lemma scenario_four_columns_target_a_empty :
  a647_features
    (lists_of (categorize ["Metadata_Well"; "Nuclei_Correlation_DAPI_A647";
                           "Nuclei_Location_Center_GOLD"; "Cells_AreaShape_DAPI"]))
  = []
  /\ categorize ["Metadata_Well"; "Nuclei_Correlation_DAPI_A647";
                 "Nuclei_Location_Center_GOLD"; "Cells_AreaShape_DAPI"]
     <> Finished (mk_lists ["Cells_AreaShape_DAPI"]
                    ["Nuclei_Correlation_DAPI_A647"]
                    ["Nuclei_Location_Center_GOLD"]).
Proof.
  split; [vm_compute; reflexivity|].
  vm_compute. discriminate.
Qed.

Lemma correlation_branch_place (column p1 : string) (st : feature_lists) :
  startswith column "Metadata_" = false ->
  split column underscore !! 1 = Some p1 ->
  contains "Correlation" p1 = true ->
  categorize_column column st = Ok (place (spec_correlation_rule column) column st).
Proof.
  unfold spec_correlation_rule, part_has. open_body.
  intros -> . simpl.
  generalize (contains "DAPI" column) as dapi.
  generalize (split column underscore) as parts.
  intros [|p0 [|q1 [|p2 [|p3 [|p4 rest]]]]] dapi; cbn; try discriminate;
    intros [= ->] ->; split_tests; try reflexivity; try discriminate.
Qed.

Lemma place_addition (g : option group) (column : string) (st : feature_lists) :
  nucleus_features (place g column st)
  = nucleus_features st ++ addition g Nucleus column /\
  a647_features (place g column st)
  = a647_features st ++ addition g TargetA column /\
  gold_features (place g column st)
  = gold_features st ++ addition g TargetB column.
Proof.
  destruct st, g as [[]|]; simpl; rewrite ?app_nil_r; auto.
Qed.

(** C3.  A column that is not metadata and whose part 1 contains
    [Correlation] is placed by the correlation rule of the
    specification: with [DAPI] anywhere in the name, at least five parts
    and [A647] in part 3 or 4 it goes to Target-A, else with [GOLD] in
    part 3 or 4 to Target-B, else nowhere; without [DAPI], at least four
    parts and [A647] in part 3 it goes to Target-A, with [GOLD] in part 3
    to Target-B, else nowhere.  Going to a group is the column at the end
    of that group's list ([a647_features] for Target-A, [gold_features]
    for Target-B), the other lists as they were; going nowhere is the
    three lists as they were. *)
Theorem correlation_branch_rule (column p1 : string) (st : feature_lists) :
  startswith column "Metadata_" = false ->
  split column underscore !! 1 = Some p1 ->
  contains "Correlation" p1 = true ->
  exists st',
    categorize_column column st = Ok st' /\
    nucleus_features st'
    = nucleus_features st ++ addition (spec_correlation_rule column) Nucleus column /\
    a647_features st'
    = a647_features st ++ addition (spec_correlation_rule column) TargetA column /\
    gold_features st'
    = gold_features st ++ addition (spec_correlation_rule column) TargetB column.
Proof.
  intros Hm Hp Hc.
  exists (place (spec_correlation_rule column) column st).
  split; [apply (correlation_branch_place column p1 st Hm Hp Hc)|].
  apply place_addition.
Qed.

Lemma correlation_branch_rule_witness :
  (exists st',
     categorize_column "Nuclei_Correlation_Overlap_DAPI_A647"
       (mk_lists ["n"] ["a"] ["g"]) = Ok st' /\
     nucleus_features st' = ["n"] /\
     a647_features st' = ["a"; "Nuclei_Correlation_Overlap_DAPI_A647"] /\
     gold_features st' = ["g"]) /\
  (exists st',
     categorize_column "Nuclei_Correlation_Overlap_DAPI_GOLD"
       (mk_lists ["n"] ["a"] ["g"]) = Ok st' /\
     nucleus_features st' = ["n"] /\
     a647_features st' = ["a"] /\
     gold_features st' = ["g"; "Nuclei_Correlation_Overlap_DAPI_GOLD"]) /\
  (exists st',
     categorize_column "Nuclei_Correlation_K_GOLD_A647"
       (mk_lists ["n"] ["a"] ["g"]) = Ok st' /\
     nucleus_features st' = ["n"] /\
     a647_features st' = ["a"] /\
     gold_features st' = ["g"; "Nuclei_Correlation_K_GOLD_A647"]) /\
  (exists st',
     categorize_column "Nuclei_Correlation_Overlap_DAPI_RNA"
       (mk_lists ["n"] ["a"] ["g"]) = Ok st' /\
     nucleus_features st' = ["n"] /\
     a647_features st' = ["a"] /\
     gold_features st' = ["g"]).
Proof.
  repeat split.
  - exact (correlation_branch_rule "Nuclei_Correlation_Overlap_DAPI_A647"
             "Correlation" (mk_lists ["n"] ["a"] ["g"]) eq_refl eq_refl eq_refl).
  - exact (correlation_branch_rule "Nuclei_Correlation_Overlap_DAPI_GOLD"
             "Correlation" (mk_lists ["n"] ["a"] ["g"]) eq_refl eq_refl eq_refl).
  - exact (correlation_branch_rule "Nuclei_Correlation_K_GOLD_A647"
             "Correlation" (mk_lists ["n"] ["a"] ["g"]) eq_refl eq_refl eq_refl).
  - exact (correlation_branch_rule "Nuclei_Correlation_Overlap_DAPI_RNA"
             "Correlation" (mk_lists ["n"] ["a"] ["g"]) eq_refl eq_refl eq_refl).
Defined.

Lemma location_branch_place (column p1 p4 : string) (st : feature_lists) :
  startswith column "Metadata_" = false ->
  split column underscore !! 1 = Some p1 ->
  contains "Correlation" p1 = false ->
  contains "Location" p1 = true ->
  5 <= length (split column underscore) ->
  split column underscore !! 4 = Some p4 ->
  categorize_column column st = Ok (place (spec_location_rule p4) column st).
Proof.
  unfold spec_location_rule. open_body. intros -> . simpl.
  generalize (contains "DAPI" column) as dapi.
  generalize (split column underscore) as parts.
  intros [|p0 [|q1 [|p2 [|p3 [|q4 rest]]]]] dapi; cbn; try discriminate.
  intros [= ->] -> -> _ [= ->]. cbn.
  split_tests; reflexivity.
Qed.

(** C4.  A column that is not metadata, whose part 1 does not contain
    [Correlation] but contains [Location], and that has at least five
    parts is placed by part 4 compared for equality: [DAPI] puts it at
    the end of [nucleus_features], [A647] at the end of [a647_features],
    [GOLD] at the end of [gold_features], the other lists as they were;
    any other part 4 leaves the three lists as they were (the Nucleus
    default is not reached). *)
Theorem location_branch_rule (column p1 p4 : string) (st : feature_lists) :
  startswith column "Metadata_" = false ->
  split column underscore !! 1 = Some p1 ->
  contains "Correlation" p1 = false ->
  contains "Location" p1 = true ->
  5 <= length (split column underscore) ->
  split column underscore !! 4 = Some p4 ->
  exists st',
    categorize_column column st = Ok st' /\
    nucleus_features st'
    = nucleus_features st ++ addition (spec_location_rule p4) Nucleus column /\
    a647_features st'
    = a647_features st ++ addition (spec_location_rule p4) TargetA column /\
    gold_features st'
    = gold_features st ++ addition (spec_location_rule p4) TargetB column.
Proof.
  intros Hm Hp Hc Hl Hlen Hp4.
  exists (place (spec_location_rule p4) column st).
  split; [apply (location_branch_place column p1 p4 st Hm Hp Hc Hl Hlen Hp4)|].
  apply place_addition.
Qed.

Lemma location_branch_rule_witness :
  (exists st',
     categorize_column "Nuclei_Location_CenterMassIntensity_X_DAPI"
       (mk_lists ["n"] ["a"] ["g"]) = Ok st' /\
     nucleus_features st' = ["n"; "Nuclei_Location_CenterMassIntensity_X_DAPI"] /\
     a647_features st' = ["a"] /\
     gold_features st' = ["g"]) /\
  (exists st',
     categorize_column "Nuclei_Location_CenterMassIntensity_X_A647"
       (mk_lists ["n"] ["a"] ["g"]) = Ok st' /\
     nucleus_features st' = ["n"] /\
     a647_features st' = ["a"; "Nuclei_Location_CenterMassIntensity_X_A647"] /\
     gold_features st' = ["g"]) /\
  (exists st',
     categorize_column "Nuclei_Location_CenterMassIntensity_X_GOLD"
       (mk_lists ["n"] ["a"] ["g"]) = Ok st' /\
     nucleus_features st' = ["n"] /\
     a647_features st' = ["a"] /\
     gold_features st' = ["g"; "Nuclei_Location_CenterMassIntensity_X_GOLD"]) /\
  (exists st',
     categorize_column "Nuclei_Location_Center_X_RNA"
       (mk_lists ["n"] ["a"] ["g"]) = Ok st' /\
     nucleus_features st' = ["n"] /\
     a647_features st' = ["a"] /\
     gold_features st' = ["g"]).
Proof.
  repeat split.
  - apply (location_branch_rule "Nuclei_Location_CenterMassIntensity_X_DAPI"
             "Location" "DAPI" (mk_lists ["n"] ["a"] ["g"]));
      first [reflexivity | vm_compute; lia].
  - apply (location_branch_rule "Nuclei_Location_CenterMassIntensity_X_A647"
             "Location" "A647" (mk_lists ["n"] ["a"] ["g"]));
      first [reflexivity | vm_compute; lia].
  - apply (location_branch_rule "Nuclei_Location_CenterMassIntensity_X_GOLD"
             "Location" "GOLD" (mk_lists ["n"] ["a"] ["g"]));
      first [reflexivity | vm_compute; lia].
  - apply (location_branch_rule "Nuclei_Location_Center_X_RNA"
             "Location" "RNA" (mk_lists ["n"] ["a"] ["g"]));
      first [reflexivity | vm_compute; lia].
Defined.

(** C5 (as the code has it).  For a column that is not metadata, has a
    part 1 and matches no marker rule: if part 1 contains [Correlation]
    the column is placed in no list; if it does not, the column goes to
    Nucleus by default, unless part 1 contains [Location] and the name
    has at least five parts, in which case it is placed in no list
    either. *)
Theorem fallback_policy (column : string) (st : feature_lists) :
  startswith column "Metadata_" = false ->
  2 <= length (split column underscore) ->
  marker_rule_matches column = false ->
  categorize_column column st = Ok (place (fallback_group column) column st).
Proof.
  unfold marker_rule_matches, fallback_group, part_has, part_is. open_body.
  intros -> . simpl.
  generalize (contains "DAPI" column) as dapi.
  generalize (split column underscore) as parts.
  intros [|p0 [|p1 [|p2 [|p3 [|p4 rest]]]]] dapi; cbn; try lia; intros _ Hm;
    repeat match type of Hm with
           | context [contains ?m ?p] => destruct (contains m p); cbn in Hm
           | context [String.eqb ?p ?m] => destruct (String.eqb p m); cbn in Hm
           | context [if ?b then _ else _] => destruct b; cbn in Hm
           end;
    try discriminate; cbn; split_tests; try reflexivity.
Qed.

Lemma fallback_policy_witness :
  categorize_column "Nuclei_AreaShape_Area" no_features
  = Ok (mk_lists ["Nuclei_AreaShape_Area"] [] [])
  /\ categorize_column "Nuclei_Correlation_Overlap_RNA_ER" no_features
     = Ok no_features.
Proof.
  split.
  - apply (fallback_policy "Nuclei_AreaShape_Area" no_features);
      first [reflexivity | vm_compute; lia].
  - apply (fallback_policy "Nuclei_Correlation_Overlap_RNA_ER" no_features);
      first [reflexivity | vm_compute; lia].
Defined.

(** C5, as the specification states it, fails: the column
    [Nuclei_Location_Center_X_RNA] is not metadata, its part 1 does not
    contain [Correlation], it matches no marker rule (no marker occurs
    anywhere in the name), and yet the loop does not default it to
    Nucleus: it is placed in no list. *)
Lemma unmatched_location_column_is_dropped :
  startswith "Nuclei_Location_Center_X_RNA" "Metadata_" = false
  /\ part_has (split "Nuclei_Location_Center_X_RNA" underscore) 1 "Correlation" = false
  /\ marker_rule_matches "Nuclei_Location_Center_X_RNA" = false
  /\ contains "DAPI" "Nuclei_Location_Center_X_RNA" = false
  /\ contains "A647" "Nuclei_Location_Center_X_RNA" = false
  /\ contains "GOLD" "Nuclei_Location_Center_X_RNA" = false
  /\ categorize ["Nuclei_Location_Center_X_RNA"] = Finished no_features
  /\ ~ In "Nuclei_Location_Center_X_RNA"
         (nucleus_features (lists_of (categorize ["Nuclei_Location_Center_X_RNA"]))).
Proof.
  repeat split; try (vm_compute; reflexivity).
  vm_compute. tauto.
Qed.

(** C10.  The body reads [parts[1]] of every column that is not
    metadata.  The loop finishes exactly when every such column name
    splits into at least two parts; a run that does not finish ends with
    [IndexError], raised at a column that is not metadata and has no
    underscore (its only part is the whole name); and a column that is
    not metadata and has no underscore always raises. *)
Theorem parts_index_precondition (columns : list string) :
  ((exists st, categorize columns = Finished st) <->
   Forall (fun c => startswith c "Metadata_" = false ->
                    2 <= length (split c underscore)) columns) /\
  (forall e st, categorize columns = Aborted e st ->
     e = IndexError /\
     exists c, In c columns /\ startswith c "Metadata_" = false /\
               contains "_" c = false /\ split c underscore = [c]) /\
  (forall c st, startswith c "Metadata_" = false -> contains "_" c = false ->
     categorize_column c st = Raise IndexError).
Proof.
  repeat split.
  - intros H. apply categorize_from_finished_iff in H.
    eapply Forall_impl; [exact H|]. intros c Hc. apply group_of_ok_iff, Hc.
  - intros H. apply categorize_from_finished_iff.
    eapply Forall_impl; [exact H|]. intros c Hc. apply group_of_ok_iff, Hc.
  - apply categorize_from_aborted in H as (c & _ & Hc).
    apply group_of_raises_iff in Hc. tauto.
  - apply categorize_from_aborted in H as (c & Hin & Hc).
    apply group_of_raises_iff in Hc as (_ & Hm & Hlen).
    exists c. apply split_single_iff in Hlen.
    repeat split; auto using split_no_sep.
  - intros c st Hm Hc. rewrite categorize_column_place.
    assert (group_of c = Raise IndexError) as ->; [|reflexivity].
    apply group_of_raises_iff. repeat split; [exact Hm|].
    apply split_single_iff. exact Hc.
Qed.

(** C6.  Whatever the table and however the loop ends, no column name is
    a member of two of the three lists; and an iteration that does not
    raise leaves the lists unchanged or appends the column to exactly one
    of them. *)
Theorem at_most_one_group (columns : list string) (column : string) :
  let st := lists_of (categorize columns) in
  ~ (In column (nucleus_features st) /\ In column (a647_features st)) /\
  ~ (In column (nucleus_features st) /\ In column (gold_features st)) /\
  ~ (In column (a647_features st) /\ In column (gold_features st)) /\
  (forall st0 st1, categorize_column column st0 = Ok st1 ->
     exists g, st1 = place g column st0).
Proof.
  unfold categorize. rewrite categorize_from_lists. simpl.
  repeat split.
  - intros [H1 H2]. apply List.filter_In in H1 as [_ H1], H2 as [_ H2].
    pose proof (placed_in_unique _ _ _ H1 H2). discriminate.
  - intros [H1 H2]. apply List.filter_In in H1 as [_ H1], H2 as [_ H2].
    pose proof (placed_in_unique _ _ _ H1 H2). discriminate.
  - intros [H1 H2]. apply List.filter_In in H1 as [_ H1], H2 as [_ H2].
    pose proof (placed_in_unique _ _ _ H1 H2). discriminate.
  - intros st0 st1. rewrite categorize_column_place.
    destruct (group_of column) as [g|e]; simpl; [|discriminate].
    intros [= <-]. eauto.
Qed.

(** The columns the body leaves in no list are those the algorithm of
    the specification drops in its correlation and location branches. *)
Lemma is_dropped_by_branch (column : string) :
  is_dropped column = dropped_by_branch column.
Proof.
  unfold is_dropped, dropped_by_branch, is_metadata, group_of,
    spec_correlation_rule, part_has, part_is.
  open_body.
  destruct (startswith column "Metadata_"); [reflexivity|]. simpl.
  generalize (contains "DAPI" column) as dapi.
  generalize (split column underscore) as parts.
  intros [|p0 [|p1 [|p2 [|p3 [|p4 rest]]]]] dapi; cbn;
    repeat match goal with
           | |- context [contains ?m ?p] => destruct (contains m p); cbn
           | |- context [String.eqb ?p ?m] => destruct (String.eqb p m); cbn
           | |- context [if ?b then _ else _] => is_var b; destruct b; cbn
           end;
    reflexivity.
Qed.

(** C2 (as the code has it).  When the loop finishes, the three lists
    are pairwise disjoint, and the input columns are, each exactly once,
    the columns of the three lists together with the columns excluded by
    the metadata prefix and the columns dropped in the correlation branch
    (no target marker where the rule looks) or in the location branch
    (at least five parts and a part 4 that is none of the markers). *)
Theorem groups_partition_with_dropped (columns : list string) (st : feature_lists) :
  categorize columns = Finished st ->
  (forall c, ~ (In c (nucleus_features st) /\ In c (a647_features st))) /\
  (forall c, ~ (In c (nucleus_features st) /\ In c (gold_features st))) /\
  (forall c, ~ (In c (a647_features st) /\ In c (gold_features st))) /\
  Permutation columns
    (nucleus_features st ++ a647_features st ++ gold_features st ++
     List.filter (fun c => startswith c "Metadata_") columns ++
     List.filter dropped_by_branch columns).
Proof.
  intros Hfin.
  assert (st = lists_of (categorize columns)) as Hst by (rewrite Hfin; reflexivity).
  pose proof (categorize_from_finished _ _ _ Hfin) as Hp.
  assert (Forall (fun c => exists g, group_of c = Ok g) columns) as Hall
    by (eapply categorize_from_finished_iff; eauto).
  unfold categorize in Hst. rewrite categorize_from_lists, Hp in Hst. simpl in Hst.
  subst st. simpl. repeat split.
  - intros c [H1 H2]. apply List.filter_In in H1 as [_ H1], H2 as [_ H2].
    pose proof (placed_in_unique _ _ _ H1 H2). discriminate.
  - intros c [H1 H2]. apply List.filter_In in H1 as [_ H1], H2 as [_ H2].
    pose proof (placed_in_unique _ _ _ H1 H2). discriminate.
  - intros c [H1 H2]. apply List.filter_In in H1 as [_ H1], H2 as [_ H2].
    pose proof (placed_in_unique _ _ _ H1 H2). discriminate.
  - rewrite <- (List.filter_ext _ _ is_dropped_by_branch).
    apply five_way_partition, Hall.
Qed.

Lemma groups_partition_with_dropped_witness :
  Permutation
    ["Metadata_Well"; "Nuclei_Correlation_DAPI_A647";
     "Nuclei_Location_Center_GOLD"; "Cells_AreaShape_DAPI";
     "Nuclei_Location_Center_X_RNA"]
    (["Cells_AreaShape_DAPI"] ++ [] ++ ["Nuclei_Location_Center_GOLD"] ++
     ["Metadata_Well"] ++
     ["Nuclei_Correlation_DAPI_A647"; "Nuclei_Location_Center_X_RNA"]).
Proof.
  exact (proj2 (proj2 (proj2
    (groups_partition_with_dropped
       ["Metadata_Well"; "Nuclei_Correlation_DAPI_A647";
        "Nuclei_Location_Center_GOLD"; "Cells_AreaShape_DAPI";
        "Nuclei_Location_Center_X_RNA"]
       (mk_lists ["Cells_AreaShape_DAPI"] [] ["Nuclei_Location_Center_GOLD"])
       eq_refl)))).
Defined.

(** C2, as the specification states it, fails: on the one-column table
    [Nuclei_Correlation_DAPI_A647] the loop finishes with three empty
    lists; the column is not metadata, so the lists and the metadata
    columns together do not contain it. *)
Lemma dropped_column_in_no_group :
  let columns := ["Nuclei_Correlation_DAPI_A647"] in
  let st := lists_of (categorize columns) in
  categorize columns = Finished no_features
  /\ is_metadata "Nuclei_Correlation_DAPI_A647" = false
  /\ ~ In "Nuclei_Correlation_DAPI_A647"
        (nucleus_features st ++ a647_features st ++ gold_features st ++
         List.filter is_metadata columns)
  /\ ~ Permutation columns
        (nucleus_features st ++ a647_features st ++ gold_features st ++
         List.filter is_metadata columns).
Proof.
  repeat split; try (vm_compute; reflexivity).
  - vm_compute. tauto.
  - intros H. apply Permutation_length in H. vm_compute in H. discriminate.
Qed.

(** ** The shuffled baseline *)

Section ShuffleFacts.
Context {value rng Model : Type}.
Context (random_interval : rng -> nat -> nat * rng).

Lemma swap_Permutation (x : list value) (i j : nat) : swap x i j ≡ₚ x.
Proof.
  unfold swap.
  destruct (x !! i) as [a|] eqn:Hi; [|reflexivity].
  destruct (x !! j) as [b|] eqn:Hj; [|reflexivity].
  eapply Permutation_insert_swap; eassumption.
Qed.

Lemma shuffle_from_Permutation (i : nat) (x : list value) (s : rng) :
  (shuffle_from random_interval i x s).1 ≡ₚ x.
Proof.
  revert x s. induction i as [|i IH]; intros x s; simpl; [reflexivity|].
  destruct (random_interval s (S i)) as [j s'].
  rewrite IH. apply swap_Permutation.
Qed.

Lemma np_random_shuffle_Permutation (x : list value) (s : rng) :
  (np_random_shuffle random_interval x s).1 ≡ₚ x.
Proof. apply shuffle_from_Permutation. Qed.

(** The columns after the loop of lines 109-110: same labels, in the
    same order, each with a permutation of its values; one call of the
    generator's shuffle per column and nothing else in the log. *)
Lemma shuffle_columns_spec (cols : list (string * list value))
    (w : world value rng Model) :
  exists cols' gen s',
    shuffle_columns random_interval cols w
    = (mk_world s' (log w ++ gen), Ok cols')
    /\ Forall2 (fun c c' => fst c' = fst c /\ snd c' ≡ₚ snd c) cols cols'
    /\ Forall (fun e => is_shuffle e = true) gen
    /\ length gen = length cols.
Proof.
  revert w. induction cols as [|[col x] rest IH]; intros w.
  - exists [], [], (rng_state w). simpl. unfold ret. rewrite app_nil_r.
    destruct w; simpl. repeat split; constructor.
  - simpl. unfold sbind at 1, shuffle_values.
    pose proof (np_random_shuffle_Permutation x (rng_state w)) as Hperm.
    destruct (np_random_shuffle random_interval x (rng_state w)) as [x' s1].
    simpl in Hperm. unfold sbind at 1.
    destruct (IH (mk_world s1 (log w ++ [NpShuffle x'])))
      as (cols' & gen & s' & Heq & Hall & Hgen & Hlen).
    rewrite Heq. unfold ret. simpl.
    exists ((col, x') :: cols'), (NpShuffle x' :: gen), s'.
    rewrite <- app_assoc. simpl.
    repeat split; auto.
Qed.
End ShuffleFacts.

(** C7.  The generation of lines 108-110 always returns a matrix
    [X_shuffled] with the shape of [X], the column names of [X] in the
    same order, and, column by column, a permutation of the values of
    the column of [X] (the same multiset), whatever the generator
    draws. *)
Theorem shuffled_matrix_preserves_columns
    {value rng Model : Type} (random_interval : rng -> nat -> nat * rng)
    (X : DataFrame value) (w : world value rng Model) :
  exists X_shuffled,
    (generate_shuffled random_interval X w).2 = Ok X_shuffled
    /\ shape X_shuffled = shape X
    /\ column_names X_shuffled = column_names X
    /\ Forall2 (fun c c' => fst c' = fst c /\ Permutation (snd c') (snd c))
         (frame_columns X) (frame_columns X_shuffled).
Proof.
  unfold generate_shuffled, copy, sbind.
  destruct (shuffle_columns_spec random_interval (frame_columns X) w)
    as (cols' & gen & s' & Heq & Hall & _ & _).
  rewrite Heq. unfold ret. simpl.
  exists (mk_frame (n_rows X) cols'). repeat split; auto.
  - unfold shape. simpl. f_equal. symmetry. eapply Forall2_length, Hall.
  - unfold column_names. simpl.
    clear Heq. induction Hall as [|c c' l l' [Hn _] _ IH]; simpl; congruence.
Qed.

(** ** The training loops *)

Section TrainingFacts.
Context {value rng Model : Type}.
Context (random_interval : rng -> nat -> nat * rng).
Context (search_fit : DataFrame value -> target value -> result Model).
Context (dump_io : Model -> PurePath -> result unit).
Context (X X_shuffled : DataFrame value).

Lemma dumped_files_app (l1 l2 : list (event value Model)) :
  dumped_files (l1 ++ l2) = dumped_files l1 ++ dumped_files l2.
Proof. apply flat_map_app. Qed.

Lemma shuffled_fits_app (l1 l2 : list (event value Model)) :
  shuffled_fits (l1 ++ l2) = shuffled_fits l1 + shuffled_fits l2.
Proof. unfold shuffled_fits. rewrite List.filter_app, length_app. reflexivity. Qed.

Lemma run_spec_ret {A} (a : A) :
  @run_spec value rng Model A X X_shuffled [] 0 (ret a).
Proof.
  intros w. exists []. simpl. rewrite app_nil_r. repeat split; auto.
Qed.

Lemma run_spec_lift {A} (r : result A) :
  @run_spec value rng Model A X X_shuffled [] 0 (lift r).
Proof.
  intros w. exists []. simpl. rewrite app_nil_r. repeat split; auto.
Qed.

Lemma run_spec_emit (e : event value Model) :
  training_event X X_shuffled e ->
  @run_spec value rng Model unit X X_shuffled
    (dumped_files [e]) (shuffled_fits [e]) (emit e).
Proof.
  intros He w. exists [e]. simpl. repeat split; auto.
Qed.

Lemma run_spec_bind {A B} (m : script A) (k : A -> script B)
    (files1 files2 : list string) (n1 n2 : nat) :
  @run_spec value rng Model A X X_shuffled files1 n1 m ->
  (forall a, @run_spec value rng Model B X X_shuffled files2 n2 (k a)) ->
  @run_spec value rng Model B X X_shuffled (files1 ++ files2) (n1 + n2) (sbind m k).
Proof.
  intros Hm Hk w. unfold sbind.
  destruct (Hm w) as (l1 & Hlog1 & Hrng1 & Hall1 & Hret1).
  destruct (m w) as [w1 [a|e]] eqn:Hmw; simpl in *.
  - destruct (Hk a w1) as (l2 & Hlog2 & Hrng2 & Hall2 & Hret2).
    exists (l1 ++ l2). rewrite Hlog2, Hlog1, Hrng2, Hrng1, app_assoc.
    repeat split; auto.
    + apply Forall_app; auto.
    + rewrite dumped_files_app.
      destruct (Hret1 a eq_refl) as [-> _].
      destruct (Hret2 _ H) as [-> _]. reflexivity.
    + rewrite shuffled_fits_app.
      destruct (Hret1 a eq_refl) as [_ ->].
      destruct (Hret2 _ H) as [_ ->]. reflexivity.
  - exists l1. repeat split; auto; discriminate.
Qed.

Lemma run_spec_for_each {A} (l : list A) (body : A -> script unit)
    (files : A -> list string) (n : nat) :
  (forall a, @run_spec value rng Model unit X X_shuffled (files a) n (body a)) ->
  @run_spec value rng Model unit X X_shuffled
    (flat_map files l) (n * length l) (for_each l body).
Proof.
  intros Hbody. induction l as [|a rest IH]; simpl.
  - rewrite Nat.mul_0_r. apply run_spec_ret.
  - replace (n * S (length rest)) with (n + n * length rest) by lia.
    apply run_spec_bind; auto.
Qed.

Lemma fit_spec (c : condition) (y : target value) :
  @run_spec value rng Model Model X X_shuffled [] (if c is ShuffledData then 1 else 0)
    (fit search_fit c (if c is ShuffledData then X_shuffled else X) y).
Proof.
  unfold fit.
  replace (@nil string) with
    (dumped_files [Fit (Model:=Model) c (if c is ShuffledData then X_shuffled else X) y]
     ++ @nil string) by reflexivity.
  replace (if c is ShuffledData then 1 else 0) with
    (shuffled_fits [Fit (Model:=Model) c (if c is ShuffledData then X_shuffled else X) y]
     + 0) by (destruct c; reflexivity).
  apply run_spec_bind; [|intros; apply run_spec_lift].
  apply run_spec_emit. split; [reflexivity|].
  intros c' p y' [= <- <- <-]. destruct c; reflexivity.
Qed.

Lemma joblib_dump_spec (model : Model) (filename : PurePath) :
  @run_spec value rng Model unit X X_shuffled [path_str filename] 0
    (joblib_dump dump_io model filename).
Proof.
  unfold joblib_dump.
  apply (run_spec_bind _ _ [] [_] 0 0); [apply run_spec_lift|]. intros _.
  apply (run_spec_emit (JoblibDump model filename)).
  split; [reflexivity | discriminate].
Qed.

Lemma train_individual_spec (training_df : DataFrame value) (feature : string) :
  @run_spec value rng Model unit X X_shuffled (individual_files feature) 1
    (train_individual search_fit dump_io training_df X X_shuffled feature).
Proof.
  unfold train_individual, individual_files.
  apply (run_spec_bind _ _ [] _ 0 1); [apply run_spec_lift|]. intros y.
  apply (run_spec_bind _ _ [] _ 0 1); [apply (fit_spec RealData)|]. intros best.
  apply (run_spec_bind _ _ [_] [_] 0 1); [apply joblib_dump_spec|]. intros _.
  apply (run_spec_bind _ _ [] [_] 1 0); [apply (fit_spec ShuffledData)|].
  intros best'. apply joblib_dump_spec.
Qed.

Lemma train_combined_spec (training_df : DataFrame value)
    (stain : string * list string) :
  @run_spec value rng Model unit X X_shuffled (combined_files stain) 1
    (train_combined search_fit dump_io training_df X X_shuffled stain).
Proof.
  unfold train_combined, combined_files. destruct stain as [stain_name feature_list].
  apply (run_spec_bind _ _ [] _ 0 1); [apply run_spec_lift|]. intros y.
  apply (run_spec_bind _ _ [] _ 0 1); [apply (fit_spec RealData)|]. intros best.
  apply (run_spec_bind _ _ [_] [_] 0 1); [apply joblib_dump_spec|]. intros _.
  apply (run_spec_bind _ _ [] [_] 1 0); [apply (fit_spec ShuffledData)|].
  intros best'. apply joblib_dump_spec.
Qed.

Lemma train_all_spec (training_df : DataFrame value) (lists : feature_lists) :
  @run_spec value rng Model unit X X_shuffled
    (flat_map combined_files
       [("A647", a647_features lists); ("GOLD", gold_features lists)] ++
     flat_map individual_files (a647_features lists) ++
     flat_map individual_files (gold_features lists))
    (2 + length (a647_features lists) + length (gold_features lists))
    (train_all search_fit dump_io training_df X X_shuffled lists).
Proof.
  unfold train_all.
  replace (2 + length (a647_features lists) + length (gold_features lists))
    with (1 * 2 + (1 * length (a647_features lists)
                   + 1 * length (gold_features lists))) by lia.
  apply run_spec_bind.
  { apply (run_spec_for_each
             [("A647", a647_features lists); ("GOLD", gold_features lists)]).
    apply train_combined_spec. }
  intros _. apply run_spec_bind.
  { apply run_spec_for_each. apply train_individual_spec. }
  intros _. apply run_spec_for_each. apply train_individual_spec.
Qed.
End TrainingFacts.

(** ** The whole run *)

Section FrameFacts.
Context {value : Type}.

Lemma getcol_ok (df : DataFrame value) (label : string) :
  In label (column_names df) -> exists x, getcol df label = Ok x.
Proof.
  unfold getcol, column_names.
  induction (frame_columns df) as [|[name x] cols IH]; simpl; [tauto|].
  intros [->|Hin].
  - rewrite String.eqb_refl. eauto.
  - destruct (String.eqb name label); eauto.
Qed.

Lemma select_ok (df : DataFrame value) (labels : list string) :
  (forall label, In label labels -> In label (column_names df)) ->
  exists X, select df labels = Ok X.
Proof.
  unfold select. intros Hin.
  assert (exists cols, getcols df labels = Ok cols) as [cols ->]; [|simpl; eauto].
  induction labels as [|label rest IH]; simpl; [eauto|].
  destruct (getcol_ok df label) as [x ->]; [apply Hin; left; reflexivity|].
  destruct IH as [cols ->]; [intros; apply Hin; right; assumption|].
  simpl. eauto.
Qed.
End FrameFacts.

Lemma nucleus_features_in_columns (columns : list string) (lists : feature_lists) :
  categorize columns = Finished lists ->
  forall c, In c (nucleus_features lists) -> In c columns.
Proof.
  intros Hfin c.
  assert (lists = lists_of (categorize columns)) as -> by (rewrite Hfin; reflexivity).
  unfold categorize. rewrite categorize_from_lists. simpl.
  intros [Hin _]%List.filter_In. apply processed_incl, Hin.
Qed.

Section RunFacts.
Context {value rng Model : Type}.
Context (random_interval : rng -> nat -> nat * rng).
Context (search_fit : DataFrame value -> target value -> result Model).
Context (dump_io : Model -> PurePath -> result unit).

Lemma generate_shuffled_run (X : DataFrame value) (w : world value rng Model) :
  exists X_shuffled gen s',
    generate_shuffled random_interval X w
    = (mk_world s' (log w ++ gen), Ok X_shuffled)
    /\ Forall (fun e => is_shuffle e = true) gen
    /\ length gen = length (frame_columns X).
Proof.
  unfold generate_shuffled, copy, sbind.
  destruct (shuffle_columns_spec random_interval (frame_columns X) w)
    as (cols' & gen & s' & Heq & _ & Hgen & Hlen).
  rewrite Heq. unfold ret.
  exists (mk_frame (n_rows X) cols'), gen, s'. auto.
Qed.

(** A run that gets past the categorisation: the generation, the YAML
    file, then the training loops. *)
Lemma main_run (training_df : DataFrame value) (lists : feature_lists)
    (X X_shuffled : DataFrame value) (w wg : world value rng Model) :
  categorize (column_names training_df) = Finished lists ->
  select training_df (nucleus_features lists) = Ok X ->
  generate_shuffled random_interval X w = (wg, Ok X_shuffled) ->
  exists suffix,
    log (main random_interval search_fit dump_io training_df w).1
    = log wg ++ YamlDump lists :: suffix /\
    rng_state (main random_interval search_fit dump_io training_df w).1 = rng_state wg /\
    Forall (training_event X X_shuffled) suffix /\
    ((main random_interval search_fit dump_io training_df w).2 = Ok tt ->
     dumped_files suffix
     = flat_map combined_files
         [("A647", a647_features lists); ("GOLD", gold_features lists)] ++
       flat_map individual_files (a647_features lists) ++
       flat_map individual_files (gold_features lists) /\
     shuffled_fits suffix
     = 2 + length (a647_features lists) + length (gold_features lists)).
Proof.
  intros Hcat Hsel Hgen.
  assert (main random_interval search_fit dump_io training_df w
          = train_all search_fit dump_io training_df X X_shuffled lists
              (mk_world (rng_state wg) (log wg ++ [YamlDump lists]))) as ->.
  { unfold main. rewrite Hcat. unfold sbind, lift. rewrite Hsel.
    cbv beta iota. rewrite Hgen. reflexivity. }
  destruct (train_all_spec search_fit dump_io X X_shuffled training_df lists
              (mk_world (rng_state wg) (log wg ++ [YamlDump lists])))
    as (suffix & Hlog & Hrng & Hall & Hret).
  exists suffix. rewrite Hlog, Hrng. cbn [rng_state log].
  rewrite <- app_assoc. split; [reflexivity|]. split; [reflexivity|].
  split; [exact Hall|]. intros Hok. apply (Hret tt Hok).
Qed.
End RunFacts.

(** C8.  In every run that gets past the categorisation, the log is the
    generation of [X_shuffled] (one call of the generator's shuffle per
    column of [X], and no fit) followed by the rest of the run; the rest
    of the run never calls the generator's shuffle again and leaves the
    generator state as the generation left it; every fit there of the
    shuffled search receives the [X_shuffled] that was generated, and
    every other fit receives [X]; and a run that ends normally has run
    one shuffled fit per stain and one per individual target.  A run
    that the categorisation aborts logs nothing. *)
Theorem shuffled_matrix_generated_once
    {value rng Model : Type} (random_interval : rng -> nat -> nat * rng)
    (search_fit : DataFrame value -> target value -> result Model)
    (dump_io : Model -> PurePath -> result unit)
    (training_df : DataFrame value) (s0 : rng) :
  let w0 := mk_world s0 [] in
  let run := main random_interval search_fit dump_io training_df w0 in
  match categorize (column_names training_df) with
  | Aborted _ _ => log run.1 = [] /\ rng_state run.1 = s0
  | Finished lists =>
      exists X X_shuffled generation training,
        select training_df (nucleus_features lists) = Ok X /\
        generate_shuffled random_interval X w0
        = (mk_world (rng_state run.1) generation, Ok X_shuffled) /\
        log run.1 = generation ++ training /\
        Forall (fun e => is_shuffle e = true /\ is_fit e = false) generation /\
        length generation = length (frame_columns X) /\
        Forall (fun e => is_shuffle e = false) training /\
        (forall c predictors y,
           In (Fit c predictors y) training ->
           predictors = match c with ShuffledData => X_shuffled | RealData => X end) /\
        (run.2 = Ok tt ->
         shuffled_fits training
         = 2 + length (a647_features lists) + length (gold_features lists))
  end.
Proof.
  intros w0 run.
  destruct (categorize (column_names training_df)) as [lists|e st] eqn:Hcat.
  - destruct (select_ok training_df (nucleus_features lists)) as [X Hsel].
    { eapply nucleus_features_in_columns, Hcat. }
    destruct (generate_shuffled_run random_interval X w0)
      as (X_shuffled & gen & s' & Hgen & Hshuf & Hlen).
    destruct (main_run random_interval search_fit dump_io training_df lists X X_shuffled
                w0 _ Hcat Hsel Hgen)
      as (suffix & Hlog & Hrng & Hall & Hret).
    fold run in Hlog, Hrng, Hret. cbn [log rng_state w0 app] in Hlog, Hrng.
    exists X, X_shuffled, gen, (YamlDump lists :: suffix).
    rewrite Hrng. repeat split; auto.
    + eapply Forall_impl; [exact Hshuf|].
      intros [] Hev; try discriminate. split; reflexivity.
    + constructor; [reflexivity|].
      eapply Forall_impl; [exact Hall|]. intros ev [Hev _]. exact Hev.
    + intros c predictors y [Hin|Hin]; [discriminate|].
      rewrite Forall_forall in Hall.
      apply (proj2 (list_elem_of_In _ _)) in Hin.
      destruct (Hall _ Hin) as [_ Hfit]. eapply Hfit. reflexivity.
    + intros Hok. apply Hret in Hok as [_ Hn]. exact Hn.
  - subst run. unfold main. rewrite Hcat. split; reflexivity.
Qed.

(** ** File names *)

Lemma contains_char_app (c : ascii) (a b : string) :
  contains (String c "") (a +:+ b)
  = contains (String c "") a || contains (String c "") b.
Proof.
  induction a as [|x a IH]; [reflexivity|].
  change (String x a +:+ b) with (String x (a +:+ b)).
  cbn [contains]. rewrite !sep_prefix, IH. apply orb_assoc.
Qed.

Lemma prefix_cons (a c : ascii) (p rest : string) :
  String.prefix (String a p) (String c rest) = Ascii.eqb c a && String.prefix p rest.
Proof.
  cbn [String.prefix]. destruct (ascii_dec a c) as [->|Hne].
  - rewrite Ascii.eqb_refl. reflexivity.
  - assert (Ascii.eqb c a = false) as -> by (apply Ascii.eqb_neq; congruence).
    reflexivity.
Qed.

(** A name without a slash is a relative path of one segment. *)
Lemma parse_path_plain (name : string) :
  contains "/" name = false ->
  parse_path name = mk_path "" (List.filter keep_segment [name]).
Proof.
  intros H. unfold parse_path. rewrite (split_no_sep name slash H). f_equal.
  destruct name as [|c rest]; [reflexivity|].
  cbn [contains] in H. apply orb_false_elim in H as [H _].
  rewrite sep_prefix in H.
  unfold root_of, startswith. rewrite !prefix_cons, H. reflexivity.
Qed.

Lemma length_string_app (a b : string) :
  String.length (a +:+ b) = String.length a + String.length b.
Proof.
  induction a as [|x a IH]; [reflexivity|].
  change (String x a +:+ b) with (String x (a +:+ b)). simpl. rewrite IH. reflexivity.
Qed.

Lemma keep_segment_long (s : string) :
  2 <= String.length s -> keep_segment s = true.
Proof.
  unfold keep_segment.
  destruct s as [|a [|b s]]; simpl; try lia. intros _.
  destruct (Ascii.eqb a "."); reflexivity.
Qed.

Lemma keep_segment_suffixed (f suffix : string) :
  2 <= String.length suffix -> keep_segment (f +:+ suffix) = true.
Proof.
  intros H. apply keep_segment_long. rewrite length_string_app. lia.
Qed.

Lemma joinpath_plain (dir : PurePath) (f suffix : string) :
  contains "/" f = false -> contains "/" suffix = false ->
  2 <= String.length suffix ->
  joinpath dir (f +:+ suffix)
  = mk_path (root dir) (path_parts dir ++ [f +:+ suffix]).
Proof.
  intros Hf Hs Hlen. unfold joinpath.
  rewrite parse_path_plain by (rewrite contains_char_app, Hf, Hs; reflexivity).
  simpl. rewrite keep_segment_suffixed by exact Hlen. reflexivity.
Qed.

Lemma individual_files_plain (feature : string) :
  contains "/" feature = false ->
  individual_files feature
  = ["models/final/" +:+ feature +:+ "_tuned_model.joblib";
     "models/shuffled_baseline/" +:+ feature +:+ "_shuffled_tuned_model.joblib"].
Proof.
  intros H. unfold individual_files.
  rewrite !joinpath_plain by first [exact H | reflexivity | simpl; lia].
  reflexivity.
Qed.

Lemma individual_files_elsewhere (features : list string) :
  Forall (fun f => contains "/" f = false) features ->
  List.filter under_all_features (flat_map individual_files features) = [].
Proof.
  induction 1 as [|f rest Hf _ IH]; [reflexivity|].
  cbn [flat_map]. rewrite List.filter_app, IH, individual_files_plain by exact Hf.
  reflexivity.
Qed.

Lemma individual_files_plain_all (features : list string) :
  Forall (fun f => contains "/" f = false) features ->
  flat_map individual_files features
  = flat_map (fun f => ["models/final/" +:+ f +:+ "_tuned_model.joblib";
                        "models/shuffled_baseline/" +:+ f
                          +:+ "_shuffled_tuned_model.joblib"]) features.
Proof.
  induction 1 as [|f rest Hf _ IH]; [reflexivity|].
  cbn [flat_map]. rewrite IH, individual_files_plain by exact Hf. reflexivity.
Qed.


(** * Further properties of the script *)

(** ** The string primitives *)

Lemma string_app_assoc (a b c : string) : (a +:+ b) +:+ c = a +:+ b +:+ c.
Proof.
  induction a as [|x a IH]; [reflexivity|].
  change (String x ((a +:+ b) +:+ c) = String x (a +:+ b +:+ c)).
  rewrite IH. reflexivity.
Qed.

Lemma prefix_iff (n s : string) :
  String.prefix n s = true <-> exists b, s = n +:+ b.
Proof.
  revert s. induction n as [|x n IH]; intros s.
  - destruct s; simpl; split; eauto.
  - destruct s as [|c s].
    + simpl. split; [discriminate | intros [b Hb]; discriminate].
    + rewrite prefix_cons, andb_true_iff, IH. split.
      * intros [Hc [b ->]]. apply Ascii.eqb_eq in Hc as ->. exists b. reflexivity.
      * intros [b Hb]. injection Hb as -> ->. rewrite Ascii.eqb_refl. eauto.
Qed.

Lemma contains_iff (n s : string) :
  contains n s = true <-> exists a b, s = a +:+ n +:+ b.
Proof.
  induction s as [|c s IH]; cbn [contains].
  - rewrite orb_false_r, prefix_iff. split.
    + intros [b Hb]. exists "", b. exact Hb.
    + intros (a & b & H). destruct a as [|x a]; [eauto | discriminate].
  - rewrite orb_true_iff, prefix_iff, IH. split.
    + intros [[b Hb]|(a & b & ->)].
      * exists "", b. exact Hb.
      * exists (String c a), b. reflexivity.
    + intros (a & b & H). destruct a as [|x a].
      * left. eauto.
      * right. injection H as -> ->. eauto.
Qed.

Lemma join_split (s : string) (sep : ascii) :
  String.concat (String sep "") (split s sep) = s.
Proof.
  induction s as [|c s IH]; [reflexivity|].
  cbn [split]. pose proof (split_nonempty s sep) as Hne.
  destruct (Ascii.eqb_spec c sep) as [->|Hc].
  - destruct (split s sep) as [|p ps]; [congruence|].
    change (String sep (String.concat (String sep "") (p :: ps)) = String sep s).
    f_equal. exact IH.
  - destruct (split s sep) as [|p ps]; [congruence|].
    destruct ps as [|q qs].
    + change (String c p = String c s). f_equal. exact IH.
    + change (String c (String.concat (String sep "") (p :: q :: qs)) = String c s).
      f_equal. exact IH.
Qed.

Lemma split_parts_no_sep (s : string) (sep : ascii) (p : string) :
  In p (split s sep) -> contains (String sep "") p = false.
Proof.
  revert p. induction s as [|c s IH]; intros p; cbn [split].
  - intros [<-|[]]. reflexivity.
  - pose proof (split_nonempty s sep) as Hne.
    destruct (Ascii.eqb c sep) eqn:Hc.
    + intros [<-|Hin]; [reflexivity | auto].
    + destruct (split s sep) as [|q qs]; [congruence|].
      intros [<-|Hin].
      * cbn [contains]. rewrite sep_prefix, Hc. simpl. apply IH. left. reflexivity.
      * apply IH. right. exact Hin.
Qed.

(** The number of separators in a name. *)
Lemma split_length (s : string) (sep : ascii) :
  length (split s sep)
  = S (length (List.filter (fun c => Ascii.eqb c sep) (list_ascii_of_string s))).
Proof.
  induction s as [|c s IH]; [reflexivity|].
  cbn [split list_ascii_of_string List.filter].
  pose proof (split_nonempty s sep) as Hne.
  destruct (Ascii.eqb c sep).
  - simpl. rewrite IH. reflexivity.
  - destruct (split s sep) as [|q qs]; [congruence|]. exact IH.
Qed.

(** X1.  [column.split("_")] loses nothing: joining the parts with the
    separator gives the name back, no part contains the separator, and
    there is one part more than there are separators in the name. *)
Theorem split_round_trip (s : string) :
  String.concat "_" (split s underscore) = s
  /\ Forall (fun p => contains "_" p = false) (split s underscore)
  /\ length (split s underscore)
     = S (length (List.filter (fun c => Ascii.eqb c underscore)
                    (list_ascii_of_string s))).
Proof.
  split; [apply join_split|]. split; [|apply split_length].
  apply List.Forall_forall. intros p Hp.
  apply (split_parts_no_sep s underscore p Hp).
Qed.

(** X2.  The two string tests of the loop mean what they say:
    [needle in s] holds exactly when [s] is some text, then [needle],
    then some text, and [s.startswith(pre)] exactly when [s] is [pre]
    followed by some text. *)
Theorem contains_substring (needle s : string) :
  (contains needle s = true <-> exists a b, s = a +:+ needle +:+ b) /\
  (startswith s needle = true <-> exists b, s = needle +:+ b).
Proof.
  split.
  - apply contains_iff.
  - unfold startswith. apply prefix_iff.
Qed.

(** ** The categorisation loop *)

Lemma string_app_nil_r (s : string) : s +:+ "" = s.
Proof.
  induction s as [|c s IH]; [reflexivity|].
  change (String c (s +:+ "") = String c s). rewrite IH. reflexivity.
Qed.

Lemma concat_member (sep p : string) (ls : list string) :
  In p ls -> exists pre post, String.concat sep ls = pre +:+ p +:+ post.
Proof.
  induction ls as [|x xs IH]; [intros []|].
  intros [->|Hin].
  - destruct xs as [|y ys].
    + exists "", "". change (p = p +:+ ""). rewrite string_app_nil_r. reflexivity.
    + exists "", (sep +:+ String.concat sep (y :: ys)). reflexivity.
  - destruct (IH Hin) as (pre & post & Heq).
    destruct xs as [|y ys]; [destruct Hin|].
    exists (x +:+ sep +:+ pre), post.
    change (String.concat sep (x :: y :: ys))
      with (x +:+ sep +:+ String.concat sep (y :: ys)).
    rewrite Heq, !string_app_assoc. reflexivity.
Qed.

(** What occurs in a part occurs in the name. *)
Lemma contains_in_part (needle s p : string) (sep : ascii) :
  In p (split s sep) -> contains needle p = true -> contains needle s = true.
Proof.
  intros Hin Hp.
  destruct (concat_member (String sep "") p _ Hin) as (pre & post & Heq).
  rewrite join_split in Heq.
  apply contains_iff in Hp as (a & b & ->).
  apply contains_iff. exists (pre +:+ a), (b +:+ post).
  rewrite Heq, !string_app_assoc. reflexivity.
Qed.

Lemma lookup_In (parts : list string) (i : nat) (p : string) :
  parts !! i = Some p -> In p parts.
Proof. intros H. apply list_elem_of_In. eapply list_elem_of_lookup_2, H. Qed.

Ltac find_part :=
  match goal with
  | H : contains ?m ?p = true |- exists i q, _ !! i = Some q /\ contains ?m q = true =>
      first [ exists 3, p; split; [reflexivity | exact H]
            | exists 4, p; split; [reflexivity | exact H] ]
  | H : String.eqb ?p ?m = true |- exists i q, _ !! i = Some q /\ contains ?m q = true =>
      apply String.eqb_eq in H; subst p;
      exists 4; eexists; split; [reflexivity | reflexivity]
  end.

Lemma placed_in_target_a (column : string) :
  placed_in TargetA column = true ->
  exists i p, split column underscore !! i = Some p /\ contains "A647" p = true.
Proof.
  unfold placed_in, group_of. open_body.
  destruct (negb (startswith column "Metadata_")); [|discriminate].
  generalize (contains "DAPI" column) as dapi.
  generalize (split column underscore) as parts.
  intros [|p0 [|p1 [|p2 [|p3 [|p4 rest]]]]] dapi; cbn; split_tests;
    cbn; intros; try discriminate; find_part.
Qed.

Lemma placed_in_target_b (column : string) :
  placed_in TargetB column = true ->
  exists i p, split column underscore !! i = Some p /\ contains "GOLD" p = true.
Proof.
  unfold placed_in, group_of. open_body.
  destruct (negb (startswith column "Metadata_")); [|discriminate].
  generalize (contains "DAPI" column) as dapi.
  generalize (split column underscore) as parts.
  intros [|p0 [|p1 [|p2 [|p3 [|p4 rest]]]]] dapi; cbn; split_tests;
    cbn; intros; try discriminate; find_part.
Qed.

Lemma placed_in_nucleus (column : string) :
  placed_in Nucleus column = true ->
  part_has (split column underscore) 1 "Correlation" = false.
Proof.
  unfold placed_in, group_of, part_has. open_body.
  destruct (negb (startswith column "Metadata_")); [|discriminate].
  generalize (contains "DAPI" column) as dapi.
  generalize (split column underscore) as parts.
  intros [|p0 [|p1 [|p2 [|p3 [|p4 rest]]]]] dapi; cbn; split_tests;
    cbn; intros; try discriminate; try reflexivity; assumption.
Qed.

Lemma placed_in_not_metadata (g : group) (column : string) :
  placed_in g column = true -> is_metadata column = false.
Proof.
  intros H. destruct (is_metadata column) eqn:Hm; [|reflexivity].
  unfold placed_in in H. rewrite (group_of_metadata _ Hm) in H. discriminate.
Qed.

(** Membership in a list of the loop, whatever its outcome. *)
Lemma in_lists_placed (columns : list string) (c : string) :
  let st := lists_of (categorize columns) in
  (In c (nucleus_features st) -> placed_in Nucleus c = true) /\
  (In c (a647_features st) -> placed_in TargetA c = true) /\
  (In c (gold_features st) -> placed_in TargetB c = true).
Proof.
  unfold categorize. rewrite categorize_from_lists. simpl.
  repeat split; intros [_ H]%List.filter_In; exact H.
Qed.

Lemma filter_sublist (f : string -> bool) (l : list string) :
  List.filter f l `sublist_of` l.
Proof.
  induction l as [|x l IH]; simpl; [constructor|].
  destruct (f x); [apply sublist_skip | apply sublist_cons]; exact IH.
Qed.

Lemma processed_sublist (columns : list string) :
  processed columns `sublist_of` columns.
Proof.
  induction columns as [|c rest IH]; simpl; [constructor|].
  destruct (group_of c); [apply sublist_skip, IH | apply sublist_nil_l].
Qed.

(** X3.  Whatever the table and however the loop ends, each of the three
    lists is a subsequence of the table's columns: its names are columns
    of the table, in the order of the table, none more often than in the
    table. *)
Theorem lists_keep_table_order (columns : list string) :
  let st := lists_of (categorize columns) in
  nucleus_features st `sublist_of` columns /\
  a647_features st `sublist_of` columns /\
  gold_features st `sublist_of` columns.
Proof.
  unfold categorize. rewrite categorize_from_lists. simpl.
  repeat split; (etrans; [apply filter_sublist | apply processed_sublist]).
Qed.

(** X4.  A column whose name starts with [Metadata_] is in none of the
    three lists, whatever the table and however the loop ends. *)
Theorem metadata_never_grouped (columns : list string) (c : string) :
  startswith c "Metadata_" = true ->
  let st := lists_of (categorize columns) in
  ~ In c (nucleus_features st ++ a647_features st ++ gold_features st).
Proof.
  intros Hm st Hin.
  destruct (in_lists_placed columns c) as (Hn & Ha & Hg).
  apply in_app_or in Hin as [Hin|Hin]; [|apply in_app_or in Hin as [Hin|Hin]].
  - apply Hn, placed_in_not_metadata in Hin. unfold is_metadata in Hin. congruence.
  - apply Ha, placed_in_not_metadata in Hin. unfold is_metadata in Hin. congruence.
  - apply Hg, placed_in_not_metadata in Hin. unfold is_metadata in Hin. congruence.
Qed.

Lemma metadata_never_grouped_witness :
  let st := lists_of (categorize ["Metadata_Well"; "Metadata_A647_GOLD_DAPI";
                                  "Cells_AreaShape_DAPI"]) in
  startswith "Metadata_A647_GOLD_DAPI" "Metadata_" = true /\
  ~ In "Metadata_A647_GOLD_DAPI"
      (nucleus_features st ++ a647_features st ++ gold_features st).
Proof.
  split; [reflexivity|].
  exact (metadata_never_grouped
           ["Metadata_Well"; "Metadata_A647_GOLD_DAPI"; "Cells_AreaShape_DAPI"]
           "Metadata_A647_GOLD_DAPI" eq_refl).
Defined.

(** X5.  Every name in [a647_features] contains [A647] and every name in
    [gold_features] contains [GOLD]: a column is made a target only on
    the evidence of its stain marker. *)
Theorem target_lists_name_their_stain (columns : list string) (c : string) :
  let st := lists_of (categorize columns) in
  (In c (a647_features st) -> contains "A647" c = true) /\
  (In c (gold_features st) -> contains "GOLD" c = true).
Proof.
  intros st. destruct (in_lists_placed columns c) as (_ & Ha & Hg). split.
  - intros Hin. destruct (placed_in_target_a c (Ha Hin)) as (i & p & Hp & Hc).
    eapply contains_in_part; [eapply lookup_In, Hp | exact Hc].
  - intros Hin. destruct (placed_in_target_b c (Hg Hin)) as (i & p & Hp & Hc).
    eapply contains_in_part; [eapply lookup_In, Hp | exact Hc].
Qed.

(** X6.  No correlation column is a predictor: the part 1 of a name in
    [nucleus_features] never contains [Correlation]. *)
Theorem nucleus_excludes_correlation (columns : list string) (c : string) :
  In c (nucleus_features (lists_of (categorize columns))) ->
  part_has (split c underscore) 1 "Correlation" = false.
Proof.
  intros Hin. destruct (in_lists_placed columns c) as (Hn & _ & _).
  apply placed_in_nucleus, Hn, Hin.
Qed.

Lemma nucleus_excludes_correlation_witness :
  part_has (split "Nuclei_Texture_Correlation_DAPI_3_00_256" underscore) 1
    "Correlation" = false.
Proof.
  apply (nucleus_excludes_correlation
           ["Nuclei_Correlation_Overlap_DAPI_A647";
            "Nuclei_Texture_Correlation_DAPI_3_00_256"]
           "Nuclei_Texture_Correlation_DAPI_3_00_256").
  vm_compute. tauto.
Defined.

Lemma place_extend (g : option group) (c : string) (st d : feature_lists) :
  place g c (extend st d) = extend st (place g c d).
Proof.
  rewrite !place_lists. unfold extend. simpl. rewrite !app_assoc. reflexivity.
Qed.

Lemma categorize_from_extend (columns : list string) (st d : feature_lists) :
  categorize_from columns (extend st d) = resume st (categorize_from columns d).
Proof.
  revert d. induction columns as [|c rest IH]; intros d; simpl; [reflexivity|].
  rewrite !categorize_column_place.
  destruct (group_of c) as [g|e]; simpl; [|reflexivity].
  rewrite place_extend. apply IH.
Qed.

Lemma categorize_from_app (l1 l2 : list string) (st : feature_lists) :
  categorize_from (l1 ++ l2) st
  = match categorize_from l1 st with
    | Finished st1 => categorize_from l2 st1
    | Aborted e st1 => Aborted e st1
    end.
Proof.
  revert st. induction l1 as [|c rest IH]; intros st; simpl; [reflexivity|].
  destruct (categorize_column c st); [apply IH | reflexivity].
Qed.

(** X7.  A table can be categorised in two pieces: if the loop aborts
    on the first piece the second is never looked at; otherwise the
    lists for the whole table are the lists of the first piece followed
    by the lists of the second, and the loop ends on the whole table as
    it ends on the second piece. *)
Theorem categorize_in_pieces (l1 l2 : list string) :
  categorize (l1 ++ l2)
  = match categorize l1 with
    | Finished st1 => resume st1 (categorize l2)
    | Aborted e st1 => Aborted e st1
    end.
Proof.
  unfold categorize. rewrite categorize_from_app.
  destruct (categorize_from l1 no_features) as [st1|e st1]; [|reflexivity].
  rewrite <- categorize_from_extend. f_equal.
  destruct st1; unfold extend; simpl; rewrite !app_nil_r; reflexivity.
Qed.

(** ** The training loops as a sequence of jobs *)

Section StepFacts.
Context {value rng Model : Type}.
Context (search_fit : DataFrame value -> target value -> result Model).
Context (dump_io : Model -> PurePath -> result unit).

Lemma after_nil {A} (w : world value rng Model) (r : result A) :
  after w ([], r) = (w, r).
Proof. unfold after. simpl. rewrite app_nil_r. destruct w; reflexivity. Qed.

Lemma run_steps_app (s1 s2 : list (step (value:=value))) :
  run_steps search_fit dump_io (s1 ++ s2)
  = match run_steps search_fit dump_io s1 with
    | (l1, Ok _) =>
        (l1 ++ (run_steps search_fit dump_io s2).1, (run_steps search_fit dump_io s2).2)
    | (l1, Raise e) => (l1, Raise e)
    end.
Proof.
  induction s1 as [|[j|e] rest IH]; simpl.
  - destruct (run_steps search_fit dump_io s2); reflexivity.
  - destruct (search_fit (job_predictors j) (job_target j)) as [best|e];
      [|reflexivity].
    destruct (dump_io best (job_file j)); [|reflexivity].
    rewrite IH. destruct (run_steps search_fit dump_io rest) as [l1 [[]|e]]; reflexivity.
  - reflexivity.
Qed.

Lemma for_each_steps {A} (l : list A) (body : A -> script unit)
    (steps : A -> list (step (value:=value))) :
  (forall a (w : world value rng Model),
     body a w = after w (run_steps search_fit dump_io (steps a))) ->
  forall w, for_each l body w = after w (run_steps search_fit dump_io (flat_map steps l)).
Proof.
  intros Hbody. induction l as [|a rest IH]; intros w; simpl.
  - unfold ret. rewrite after_nil. reflexivity.
  - unfold sbind. rewrite Hbody, run_steps_app. unfold after at 1.
    destruct (run_steps search_fit dump_io (steps a)) as [l1 [[]|e]]; simpl.
    + rewrite IH. unfold after. simpl. rewrite app_assoc. reflexivity.
    + reflexivity.
Qed.

Lemma train_individual_steps (training_df X X_shuffled : DataFrame value)
    (feature : string) (w : world value rng Model) :
  train_individual search_fit dump_io training_df X X_shuffled feature w
  = after w (run_steps search_fit dump_io
               (individual_steps training_df X X_shuffled feature)).
Proof.
  unfold train_individual, individual_steps, joblib_dump, fit, sbind, lift, emit,
    after.
  destruct (getcol training_df feature) as [y|e]; simpl;
    [|rewrite app_nil_r; destruct w; reflexivity].
  destruct (search_fit X (Vector y)) as [best|e]; simpl; [|reflexivity].
  destruct (dump_io best _) as [[]|e]; simpl; [|reflexivity].
  destruct (search_fit X_shuffled (Vector y)) as [best'|e]; simpl;
    [|rewrite <- ?app_assoc; reflexivity].
  destruct (dump_io best' _) as [[]|e]; simpl;
    rewrite <- ?app_assoc; reflexivity.
Qed.

Lemma train_combined_steps (training_df X X_shuffled : DataFrame value)
    (stain : string * list string) (w : world value rng Model) :
  train_combined search_fit dump_io training_df X X_shuffled stain w
  = after w (run_steps search_fit dump_io
               (combined_steps training_df X X_shuffled stain)).
Proof.
  destruct stain as [stain_name feature_list].
  unfold train_combined, combined_steps, joblib_dump, fit, sbind, lift, emit,
    after.
  cbn [fst snd].
  destruct (select training_df feature_list) as [y|e]; simpl;
    [|rewrite app_nil_r; destruct w; reflexivity].
  destruct (search_fit X (Matrix y)) as [best|e]; simpl; [|reflexivity].
  destruct (dump_io best _) as [[]|e]; simpl; [|reflexivity].
  destruct (search_fit X_shuffled (Matrix y)) as [best'|e]; simpl;
    [|rewrite <- ?app_assoc; reflexivity].
  destruct (dump_io best' _) as [[]|e]; simpl;
    rewrite <- ?app_assoc; reflexivity.
Qed.

(** The three loops run the steps of [all_steps] and nothing else. *)
Lemma train_all_steps (training_df X X_shuffled : DataFrame value)
    (lists : feature_lists) (w : world value rng Model) :
  train_all search_fit dump_io training_df X X_shuffled lists w
  = after w (run_steps search_fit dump_io (all_steps training_df X X_shuffled lists)).
Proof.
  unfold train_all, all_steps, sbind.
  rewrite (for_each_steps _ _ (combined_steps training_df X X_shuffled))
    by (intros; apply train_combined_steps).
  rewrite run_steps_app. unfold after at 1.
  destruct (run_steps search_fit dump_io
              (flat_map (combined_steps training_df X X_shuffled)
                 [("A647", a647_features lists); ("GOLD", gold_features lists)]))
    as [l1 [[]|e]]; cbn [fst snd]; [|reflexivity].
  rewrite (for_each_steps _ _ (individual_steps training_df X X_shuffled))
    by (intros; apply train_individual_steps).
  rewrite run_steps_app. unfold after at 1.
  destruct (run_steps search_fit dump_io
              (flat_map (individual_steps training_df X X_shuffled)
                 (a647_features lists)))
    as [l2 [[]|e]]; cbn [fst snd rng_state log].
  - rewrite (for_each_steps _ _ (individual_steps training_df X X_shuffled))
      by (intros; apply train_individual_steps).
    unfold after. cbn [fst snd rng_state log]. rewrite !app_assoc. reflexivity.
  - unfold after. cbn [fst snd]. rewrite app_assoc. reflexivity.
Qed.
End StepFacts.

Section StepLogs.
Context {value Model : Type}.
Context (search_fit : DataFrame value -> target value -> result Model).
Context (dump_io : Model -> PurePath -> result unit).

(** Every dump of a step sequence directly follows the fit of its own
    job, and holds the model that this search returned. *)
Lemma run_steps_dump (steps : list (step (value:=value)))
    (model : Model) (filename : PurePath) :
  In (JoblibDump model filename) (run_steps search_fit dump_io steps).1 ->
  exists pre post j,
    (run_steps search_fit dump_io steps).1
    = pre ++ Fit (job_condition j) (job_predictors j) (job_target j)
             :: JoblibDump model filename :: post
    /\ In (Job j) steps
    /\ search_fit (job_predictors j) (job_target j) = Ok model
    /\ filename = job_file j.
Proof.
  induction steps as [|[j|e] rest IH]; simpl; [tauto| |tauto].
  destruct (search_fit (job_predictors j) (job_target j)) as [best|e] eqn:Hfit.
  - destruct (dump_io best (job_file j)) as [[]|e].
    + destruct (run_steps search_fit dump_io rest) as [l r]. simpl in *.
      intros [Hin|[Hin|Hin]]; [discriminate| |].
      * injection Hin as <- <-. exists [], l, j. repeat split; auto.
      * destruct (IH Hin) as (pre & post & j' & -> & Hj & Hok & Hfile).
        exists (Fit (job_condition j) (job_predictors j) (job_target j)
                  :: JoblibDump best (job_file j) :: pre), post, j'.
        repeat split; auto.
    + simpl. intros [Hin|[]]. discriminate.
  - simpl. intros [Hin|[]]. discriminate.
Qed.

(** A step sequence raises at a failed lookup, or at a search or at
    the dump that follows it, and the fit of that search is then the
    last event. *)
Lemma run_steps_raise (steps : list (step (value:=value))) (e : exn) :
  (run_steps search_fit dump_io steps).2 = Raise e ->
  In (Stop e) steps \/
  exists j, In (Job j) steps
    /\ last (run_steps search_fit dump_io steps).1
       = Some (Fit (job_condition j) (job_predictors j) (job_target j))
    /\ (search_fit (job_predictors j) (job_target j) = Raise e \/
        exists best,
          search_fit (job_predictors j) (job_target j) = Ok best /\
          dump_io best (job_file j) = Raise e).
Proof.
  induction steps as [|[j|e'] rest IH]; simpl; [discriminate| |].
  - destruct (search_fit (job_predictors j) (job_target j)) as [best|e'] eqn:Hfit.
    + destruct (dump_io best (job_file j)) as [[]|e'] eqn:Hdump.
      * destruct (run_steps search_fit dump_io rest) as [l r] eqn:Hrest. simpl in *.
        intros Hr. destruct (IH Hr) as [Hstop|(j' & Hj & Hlast & Hraise)]; [auto|].
        right. exists j'. repeat split; auto.
        destruct l as [|ev l]; [discriminate|]. exact Hlast.
      * simpl. intros [= ->]. right. exists j. repeat split; eauto.
    + simpl. intros [= ->]. right. exists j. auto.
  - intros [= ->]. auto.
Qed.

(** The events of a step sequence are fits and dumps of its jobs. *)
Lemma run_steps_events (steps : list (step (value:=value)))
    (ev : event value Model) :
  In ev (run_steps search_fit dump_io steps).1 ->
  exists j, In (Job j) steps /\
    (ev = Fit (job_condition j) (job_predictors j) (job_target j) \/
     exists model, ev = JoblibDump model (job_file j)).
Proof.
  induction steps as [|[j|e] rest IH]; simpl; [tauto| |tauto].
  destruct (search_fit (job_predictors j) (job_target j)) as [best|e].
  - destruct (dump_io best (job_file j)) as [[]|e].
    + destruct (run_steps search_fit dump_io rest) as [l r]. simpl in *.
      intros [<-|[<-|Hin]]; [exists j; auto | exists j; eauto |].
      destruct (IH Hin) as (j' & Hj & Hev). eauto.
    + simpl. intros [<-|[]]. exists j. auto.
  - simpl. intros [<-|[]]. exists j. auto.
Qed.
End StepLogs.

Section RunSteps.
Context {value rng Model : Type}.
Context (random_interval : rng -> nat -> nat * rng).
Context (search_fit : DataFrame value -> target value -> result Model).
Context (dump_io : Model -> PurePath -> result unit).

(** A run that gets past the categorisation, as a sequence of steps. *)
Lemma main_steps (training_df : DataFrame value) (s0 : rng) :
  match categorize (column_names training_df) with
  | Aborted e _ =>
      main random_interval search_fit dump_io training_df (mk_world s0 [])
      = (mk_world s0 [], Raise e)
  | Finished lists =>
      exists X X_shuffled gen s1,
        select training_df (nucleus_features lists) = Ok X /\
        generate_shuffled random_interval X (mk_world s0 [])
        = (mk_world s1 gen, Ok X_shuffled) /\
        Forall (fun ev => is_shuffle ev = true) gen /\
        main random_interval search_fit dump_io training_df (mk_world s0 [])
        = after (mk_world s1 (gen ++ [YamlDump lists]))
            (run_steps search_fit dump_io (all_steps training_df X X_shuffled lists))
  end.
Proof.
  destruct (categorize (column_names training_df)) as [lists|e st] eqn:Hcat.
  - destruct (select_ok training_df (nucleus_features lists)) as [X Hsel].
    { eapply nucleus_features_in_columns, Hcat. }
    destruct (generate_shuffled_run random_interval X
                (mk_world s0 (@nil (event value Model))))
      as (X_shuffled & gen & s1 & Hgen & Hshuf & _).
    cbn [log app] in Hgen.
    exists X, X_shuffled, gen, s1. repeat split; auto.
    unfold main. rewrite Hcat. unfold sbind at 1, lift. rewrite Hsel.
    unfold sbind at 1. rewrite Hgen.
    unfold sbind at 1, emit. cbn [rng_state log].
    apply train_all_steps.
  - unfold main. rewrite Hcat. reflexivity.
Qed.
End RunSteps.

(** ** What a run logs *)

Lemma lists_in_columns (columns : list string) (c : string) :
  let st := lists_of (categorize columns) in
  In c (nucleus_features st ++ a647_features st ++ gold_features st) ->
  In c columns.
Proof.
  unfold categorize. rewrite categorize_from_lists. simpl.
  rewrite !in_app_iff, !List.filter_In.
  intros [[H _]|[[H _]|[H _]]]; apply processed_incl, H.
Qed.

Section StepsOfTable.
Context {value Model : Type}.
Context (training_df X X_shuffled : DataFrame value).

Lemma individual_steps_jobs (features : list string) :
  (forall f, In f features -> In f (column_names training_df)) ->
  Forall is_job (flat_map (individual_steps training_df X X_shuffled) features).
Proof.
  induction features as [|f rest IH]; intros Hin; simpl; [constructor|].
  apply Forall_app. split; [|apply IH; intros; apply Hin; right; assumption].
  unfold individual_steps.
  destruct (getcol_ok training_df f) as [y ->]; [apply Hin; left; reflexivity|].
  repeat constructor.
Qed.

Lemma combined_steps_jobs (stain_name : string) (features : list string) :
  (forall f, In f features -> In f (column_names training_df)) ->
  Forall is_job (combined_steps training_df X X_shuffled (stain_name, features)).
Proof.
  intros Hin. unfold combined_steps. cbn [snd].
  destruct (select_ok training_df features Hin) as [y ->]. repeat constructor.
Qed.

(** On the lists of the categorisation no lookup of a target fails. *)
Lemma all_steps_jobs (lists : feature_lists) :
  categorize (column_names training_df) = Finished lists ->
  Forall is_job (all_steps training_df X X_shuffled lists).
Proof.
  intros Hcat.
  assert (forall f, In f (a647_features lists ++ gold_features lists) ->
                    In f (column_names training_df)) as Hin.
  { intros f Hf. apply lists_in_columns. rewrite Hcat. cbn [lists_of].
    apply in_app_iff. right. exact Hf. }
  unfold all_steps. cbn [flat_map]. rewrite app_nil_r.
  repeat (apply Forall_app; split).
  - apply combined_steps_jobs. intros; apply Hin, in_app_iff; auto.
  - apply combined_steps_jobs. intros; apply Hin, in_app_iff; auto.
  - apply individual_steps_jobs. intros; apply Hin, in_app_iff; auto.
  - apply individual_steps_jobs. intros; apply Hin, in_app_iff; auto.
Qed.

Lemma not_stop_of_jobs (steps : list (step (value:=value))) (e : exn) :
  Forall is_job steps -> ~ In (Stop e) steps.
Proof.
  intros Hall Hin. rewrite List.Forall_forall in Hall. exact (Hall _ Hin).
Qed.
End StepsOfTable.

(** X8.  Every file a run writes directly follows, in the log, a search
    that returned, and holds the model this search returned: no model is
    written that was not just fit, in aborted runs as in normal ones. *)
Theorem dump_follows_its_fit
    {value rng Model : Type} (random_interval : rng -> nat -> nat * rng)
    (search_fit : DataFrame value -> target value -> result Model)
    (dump_io : Model -> PurePath -> result unit)
    (training_df : DataFrame value) (s0 : rng)
    (model : Model) (filename : PurePath) :
  let run := main random_interval search_fit dump_io training_df (mk_world s0 []) in
  In (JoblibDump model filename) (log run.1) ->
  exists pre post c predictors y,
    log run.1 = pre ++ Fit c predictors y :: JoblibDump model filename :: post
    /\ search_fit predictors y = Ok model.
Proof.
  intros run. subst run.
  pose proof (main_steps random_interval search_fit dump_io training_df s0) as Hmain.
  destruct (categorize (column_names training_df)) as [lists|e st].
  2: { rewrite Hmain. intros []. }
  destruct Hmain as (X & Xs & gen & s1 & _ & _ & Hgen & ->).
  unfold after. cbn [fst log]. rewrite <- app_assoc. cbn [app].
  intros Hin. apply in_app_or in Hin as [Hin|[Hin|Hin]].
  - rewrite List.Forall_forall in Hgen. specialize (Hgen _ Hin). discriminate.
  - discriminate.
  - destruct (run_steps_dump search_fit dump_io _ _ _ Hin)
      as (pre & post & j & -> & _ & Hok & _).
    exists (gen ++ YamlDump lists :: pre), post.
    eexists _, _, _. split; [|exact Hok].
    rewrite <- app_assoc. reflexivity.
Qed.

Lemma dump_follows_its_fit_witness :
  exists pre post c predictors y,
    log (main counter_interval always_fit always_dump example_table (mk_world 5 [])).1
    = pre ++ Fit c predictors y
             :: JoblibDump tt
                  (joinpath final_dir "Nuclei_Location_Center_GOLD_tuned_model.joblib")
             :: post
    /\ always_fit predictors y = Ok tt.
Proof.
  apply (dump_follows_its_fit counter_interval always_fit always_dump example_table 5).
  vm_compute. do 15 right. left. reflexivity.
Defined.

(** X9.  Of the steps of [main] that can raise (the categorisation,
    the column lookups, the searches and the dumps of the models; the
    features file is taken as written), a run raises only in three ways:
    the categorisation aborts on a name without underscore, with
    [IndexError] and nothing logged; or a search raises; or the dump of
    the model a search returned raises.  In the last two cases the fit
    of that search is the last event of the log (nothing is fit or
    written after it) and the run ends with the exception of the search
    or of the dump.  No lookup of a column ever fails. *)
Theorem run_raises_in_three_ways
    {value rng Model : Type} (random_interval : rng -> nat -> nat * rng)
    (search_fit : DataFrame value -> target value -> result Model)
    (dump_io : Model -> PurePath -> result unit)
    (training_df : DataFrame value) (s0 : rng) (e : exn) :
  let run := main random_interval search_fit dump_io training_df (mk_world s0 []) in
  run.2 = Raise e ->
  (e = IndexError /\ log run.1 = [] /\
   exists st, categorize (column_names training_df) = Aborted IndexError st) \/
  (exists c predictors y,
     last (log run.1) = Some (Fit c predictors y) /\
     (search_fit predictors y = Raise e \/
      exists best filename,
        search_fit predictors y = Ok best /\ dump_io best filename = Raise e)).
Proof.
  intros run. subst run.
  pose proof (main_steps random_interval search_fit dump_io training_df s0) as Hmain.
  destruct (categorize (column_names training_df)) as [lists|e' st] eqn:Hcat.
  - destruct Hmain as (X & Xs & gen & s1 & _ & _ & _ & ->).
    unfold after. cbn [fst snd log]. intros Hr. right.
    destruct (run_steps_raise search_fit dump_io _ _ Hr)
      as [Hstop|(j & _ & Hlast & Hraise)].
    + exfalso. eapply not_stop_of_jobs; [|exact Hstop].
      apply all_steps_jobs, Hcat.
    + eexists _, _, _. split.
      * rewrite last_app, Hlast. reflexivity.
      * destruct Hraise as [Hs|(best & Hs & Hd)]; eauto.
  - rewrite Hmain. cbn [fst snd log]. intros [= ->]. left.
    assert (e = IndexError) as ->.
    { unfold categorize in Hcat.
      apply categorize_from_aborted in Hcat as (c & _ & Hc).
      apply group_of_raises_iff in Hc. tauto. }
    eauto.
Qed.

Lemma run_raises_in_three_ways_witness :
  ((ValueError = IndexError /\
    log (main counter_interval fails_on_columns always_dump example_table
           (mk_world 5 [])).1 = [] /\
    exists st, categorize (column_names example_table) = Aborted IndexError st) \/
   (exists c predictors y,
      last (log (main counter_interval fails_on_columns always_dump example_table
                   (mk_world 5 [])).1)
      = Some (Fit c predictors y) /\
      (fails_on_columns predictors y = Raise ValueError \/
       exists best filename,
         fails_on_columns predictors y = Ok best /\
         always_dump best filename = Raise ValueError))) /\
  ((OSError = IndexError /\
    log (main counter_interval always_fit final_dir_missing example_table
           (mk_world 5 [])).1 = [] /\
    exists st, categorize (column_names example_table) = Aborted IndexError st) \/
   (exists c predictors y,
      last (log (main counter_interval always_fit final_dir_missing example_table
                   (mk_world 5 [])).1)
      = Some (Fit c predictors y) /\
      (always_fit predictors y = Raise OSError \/
       exists best filename,
         always_fit predictors y = Ok best /\
         final_dir_missing best filename = Raise OSError))).
Proof.
  split.
  - apply (run_raises_in_three_ways counter_interval fails_on_columns always_dump
             example_table 5 ValueError).
    vm_compute. reflexivity.
  - apply (run_raises_in_three_ways counter_interval always_fit final_dir_missing
             example_table 5 OSError).
    vm_compute. reflexivity.
Defined.

Section StepFiles.
Context {value Model : Type}.
Context (search_fit : DataFrame value -> target value -> result Model).
Context (dump_io : Model -> PurePath -> result unit).

Lemma run_steps_files_prefix (steps : list (step (value:=value))) :
  dumped_files (run_steps search_fit dump_io steps).1 `prefix_of` step_files steps.
Proof.
  induction steps as [|[j|e] rest IH]; simpl; [reflexivity| |apply prefix_nil].
  destruct (search_fit (job_predictors j) (job_target j)) as [best|e];
    [|apply prefix_nil].
  destruct (dump_io best (job_file j)) as [[]|e]; [|apply prefix_nil].
  destruct (run_steps search_fit dump_io rest) as [l r]. simpl in *.
  apply list_relations.list.prefix_cons, IH.
Qed.

(** A step sequence that returns has run every job: one fit and one
    file per job. *)
Lemma run_steps_ok (steps : list (step (value:=value))) :
  (run_steps search_fit dump_io steps).2 = Ok tt ->
  dumped_files (run_steps search_fit dump_io steps).1 = step_files steps /\
  fits (run_steps search_fit dump_io steps).1 = length (step_files steps).
Proof.
  induction steps as [|[j|e] rest IH]; simpl; [auto| |discriminate].
  destruct (search_fit (job_predictors j) (job_target j)) as [best|e];
    [|discriminate].
  destruct (dump_io best (job_file j)) as [[]|e]; [|discriminate].
  destruct (run_steps search_fit dump_io rest) as [l r]. simpl in *.
  intros Hr. destruct (IH Hr) as [-> Hn]. unfold fits in *. simpl.
  rewrite Hn. auto.
Qed.

Context (training_df X X_shuffled : DataFrame value).

Lemma step_files_individual (features : list string) :
  (forall f, In f features -> In f (column_names training_df)) ->
  step_files (flat_map (individual_steps training_df X X_shuffled) features)
  = flat_map individual_files features.
Proof.
  induction features as [|f rest IH]; intros Hin; [reflexivity|].
  cbn [flat_map]. unfold step_files in *. rewrite flat_map_app, IH
    by (intros; apply Hin; right; assumption).
  f_equal. unfold individual_steps.
  destruct (getcol_ok training_df f) as [y ->]; [apply Hin; left; reflexivity|].
  reflexivity.
Qed.

Lemma step_files_combined (stain_name : string) (features : list string) :
  (forall f, In f features -> In f (column_names training_df)) ->
  step_files (combined_steps training_df X X_shuffled (stain_name, features))
  = combined_files (stain_name, features).
Proof.
  intros Hin. unfold combined_steps. cbn [snd].
  destruct (select_ok training_df features Hin) as [y ->]. reflexivity.
Qed.

Lemma step_files_all (lists : feature_lists) :
  categorize (column_names training_df) = Finished lists ->
  step_files (all_steps training_df X X_shuffled lists)
  = flat_map combined_files
      [("A647", a647_features lists); ("GOLD", gold_features lists)] ++
    flat_map individual_files (a647_features lists ++ gold_features lists).
Proof.
  intros Hcat.
  assert (forall f, In f (a647_features lists ++ gold_features lists) ->
                    In f (column_names training_df)) as Hin.
  { intros f Hf. apply lists_in_columns. rewrite Hcat. cbn [lists_of].
    apply in_app_iff. right. exact Hf. }
  unfold all_steps, step_files. rewrite !flat_map_app. cbn [flat_map].
  rewrite !app_nil_r, !flat_map_app.
  fold (step_files (combined_steps training_df X X_shuffled
                      ("A647", a647_features lists))).
  fold (step_files (combined_steps training_df X X_shuffled
                      ("GOLD", gold_features lists))).
  rewrite !step_files_combined by (intros; apply Hin, in_app_iff; auto).
  fold (step_files (flat_map (individual_steps training_df X X_shuffled)
                      (a647_features lists))).
  fold (step_files (flat_map (individual_steps training_df X X_shuffled)
                      (gold_features lists))).
  rewrite !step_files_individual by (intros; apply Hin, in_app_iff; auto).
  rewrite <- !app_assoc. reflexivity.
Qed.
End StepFiles.

Lemma dumped_files_generation {value Model : Type}
    (gen : list (event value Model)) :
  Forall (fun ev => is_shuffle ev = true) gen ->
  dumped_files gen = [] /\ fits gen = 0.
Proof.
  induction 1 as [|ev l Hev _ [IH1 IH2]]; [auto|].
  destruct ev; try discriminate. auto.
Qed.

Lemma main_files_prefix
    {value rng Model : Type} (random_interval : rng -> nat -> nat * rng)
    (search_fit : DataFrame value -> target value -> result Model)
    (dump_io : Model -> PurePath -> result unit)
    (training_df : DataFrame value) (s0 : rng) :
  let run := main random_interval search_fit dump_io training_df (mk_world s0 []) in
  let lists := lists_of (categorize (column_names training_df)) in
  dumped_files (log run.1)
  `prefix_of`
  flat_map combined_files
    [("A647", a647_features lists); ("GOLD", gold_features lists)] ++
  flat_map individual_files (a647_features lists ++ gold_features lists).
Proof.
  intros run lists. subst run lists.
  pose proof (main_steps random_interval search_fit dump_io training_df s0) as Hmain.
  destruct (categorize (column_names training_df)) as [lists|e st] eqn:Hcat.
  2: { rewrite Hmain. apply prefix_nil. }
  destruct Hmain as (X & Xs & gen & s1 & _ & _ & Hgen & ->).
  unfold after. cbn [fst log lists_of].
  rewrite !dumped_files_app, (proj1 (dumped_files_generation gen Hgen)).
  change (dumped_files [YamlDump (value:=value) (Model:=Model) lists])
    with (@nil string).
  cbn [app].
  rewrite <- (step_files_all training_df X Xs lists Hcat).
  apply run_steps_files_prefix.
Qed.


(** X10.  Whatever the searches do, the files a run has written are an
    initial segment of the files of a normal run, in the order of the
    script: the combined A647 and GOLD files, then the two files of each
    A647 target, then those of each GOLD target.  A run never writes a
    later file without having written all the earlier ones, and a run
    that ends normally has written them all. *)
Theorem files_written_in_script_order
    {value rng Model : Type} (random_interval : rng -> nat -> nat * rng)
    (search_fit : DataFrame value -> target value -> result Model)
    (dump_io : Model -> PurePath -> result unit)
    (training_df : DataFrame value) (s0 : rng) :
  let run := main random_interval search_fit dump_io training_df (mk_world s0 []) in
  let lists := lists_of (categorize (column_names training_df)) in
  let all_files :=
    flat_map combined_files
      [("A647", a647_features lists); ("GOLD", gold_features lists)] ++
    flat_map individual_files (a647_features lists ++ gold_features lists) in
  dumped_files (log run.1) `prefix_of` all_files /\
  (run.2 = Ok tt -> dumped_files (log run.1) = all_files).
Proof.
  intros run lists all_files. split; [apply main_files_prefix|].
  subst run lists all_files.
  pose proof (main_steps random_interval search_fit dump_io training_df s0) as Hmain.
  destruct (categorize (column_names training_df)) as [lists|e st] eqn:Hcat.
  2: { rewrite Hmain. discriminate. }
  destruct Hmain as (X & Xs & gen & s1 & _ & _ & Hgen & ->).
  unfold after. cbn [fst snd log lists_of]. intros Hok.
  rewrite !dumped_files_app, (proj1 (dumped_files_generation gen Hgen)).
  change (dumped_files [YamlDump (value:=value) (Model:=Model) lists])
    with (@nil string).
  cbn [app].
  rewrite (proj1 (run_steps_ok search_fit dump_io _ Hok)).
  apply step_files_all, Hcat.
Qed.

(** X11.  A run that ends normally has run 4 + 2 (|A647| + |GOLD|)
    searches and written as many files: every model that was fit was
    written, and nothing else. *)
Theorem every_fit_is_written
    {value rng Model : Type} (random_interval : rng -> nat -> nat * rng)
    (search_fit : DataFrame value -> target value -> result Model)
    (dump_io : Model -> PurePath -> result unit)
    (training_df : DataFrame value) (s0 : rng) :
  let run := main random_interval search_fit dump_io training_df (mk_world s0 []) in
  let lists := lists_of (categorize (column_names training_df)) in
  run.2 = Ok tt ->
  fits (log run.1)
  = 4 + 2 * (length (a647_features lists) + length (gold_features lists))
  /\ length (dumped_files (log run.1)) = fits (log run.1).
Proof.
  intros run lists. subst run lists.
  pose proof (main_steps random_interval search_fit dump_io training_df s0) as Hmain.
  destruct (categorize (column_names training_df)) as [lists|e st] eqn:Hcat.
  2: { rewrite Hmain. discriminate. }
  destruct Hmain as (X & Xs & gen & s1 & _ & _ & Hgen & ->).
  unfold after. cbn [fst snd log lists_of]. intros Hok.
  destruct (run_steps_ok search_fit dump_io _ Hok) as [Hfiles Hfits].
  destruct (dumped_files_generation gen Hgen) as [Hg1 Hg2].
  unfold fits in *. rewrite !dumped_files_app, !List.filter_app, !length_app.
  rewrite Hg1, Hg2, Hfiles, Hfits.
  rewrite (step_files_all training_df X Xs lists Hcat).
  change (dumped_files [YamlDump (value:=value) (Model:=Model) lists])
    with (@nil string).
  change (List.filter is_fit [YamlDump (value:=value) (Model:=Model) lists])
    with (@nil (event value Model)).
  rewrite !length_app. cbn [length flat_map combined_files app].
  assert (forall l : list string,
            length (flat_map individual_files l) = 2 * length l) as Hlen.
  { induction l as [|f l IH]; [reflexivity|]. cbn [flat_map]. 
    rewrite length_app, IH. simpl. lia. }
  rewrite Hlen, length_app. lia.
Qed.

Lemma every_fit_is_written_witness :
  fits (log (main counter_interval always_fit always_dump example_table (mk_world 5 [])).1)
  = 4 + 2 * (1 + 1)
  /\ length (dumped_files
               (log (main counter_interval always_fit always_dump example_table
                       (mk_world 5 [])).1))
     = fits (log (main counter_interval always_fit always_dump example_table
                    (mk_world 5 [])).1).
Proof.
  apply (every_fit_is_written counter_interval always_fit always_dump example_table 5).
  vm_compute. reflexivity.
Defined.

(** ** The matrices of the fits *)

Section FrameShapes.
Context {value : Type}.

Lemma getcol_length (df : DataFrame value) (label : string) (y : list value) :
  well_formed df -> getcol df label = Ok y -> length y = n_rows df.
Proof.
  unfold well_formed, getcol. intros Hwf.
  destruct (List.find _ (frame_columns df)) as [c|] eqn:Hfind; [|discriminate].
  intros [= <-]. apply List.find_some in Hfind as [Hin _].
  rewrite List.Forall_forall in Hwf. apply Hwf, Hin.
Qed.

Lemma getcols_spec (df : DataFrame value) (labels : list string)
    (cols : list (string * list value)) :
  getcols df labels = Ok cols ->
  map fst cols = labels /\
  (well_formed df -> Forall (fun c => length (snd c) = n_rows df) cols).
Proof.
  revert cols. induction labels as [|label rest IH]; intros cols; simpl.
  - intros [= <-]. split; [reflexivity | constructor].
  - destruct (getcol df label) as [y|e] eqn:Hy; [|discriminate]. simpl.
    destruct (getcols df rest) as [cols'|e]; [|discriminate]. simpl.
    intros [= <-]. destruct (IH _ eq_refl) as [Hn Hw]. split.
    + simpl. rewrite Hn. reflexivity.
    + intros Hwf. constructor; [|auto]. simpl. eapply getcol_length; eauto.
Qed.

(** [df[labels]] has the labels asked for, in the order asked for, and
    the rows of [df]. *)
Lemma select_spec (df X : DataFrame value) (labels : list string) :
  select df labels = Ok X ->
  column_names X = labels /\ n_rows X = n_rows df /\
  (well_formed df -> well_formed X).
Proof.
  unfold select. destruct (getcols df labels) as [cols|e] eqn:Hc; [|discriminate].
  simpl. intros [= <-]. destruct (getcols_spec _ _ _ Hc) as [Hn Hw].
  repeat split; auto.
Qed.
End FrameShapes.

Lemma generate_shuffled_spec {value rng Model : Type}
    (random_interval : rng -> nat -> nat * rng)
    (X X_shuffled : DataFrame value) (w w' : world value rng Model) :
  generate_shuffled random_interval X w = (w', Ok X_shuffled) ->
  column_names X_shuffled = column_names X /\
  n_rows X_shuffled = n_rows X /\
  (well_formed X -> well_formed X_shuffled).
Proof.
  unfold generate_shuffled, copy, sbind.
  destruct (shuffle_columns_spec random_interval (frame_columns X) w)
    as (cols' & gen & s' & -> & Hall & _ & _).
  unfold ret. intros [= _ <-]. unfold column_names, well_formed. simpl.
  repeat split.
  - induction Hall as [|c c' l l' [Hn _] _ IH]; simpl; congruence.
  - intros Hwf. induction Hall as [|c c' l l' [_ Hp] _ IH]; [constructor|].
    apply Forall_cons in Hwf as [Hc Hl]. constructor; [|auto].
    rewrite (Permutation_length Hp). exact Hc.
Qed.

Section JobsOfTable.
Context {value : Type}.
Context (training_df X X_shuffled : DataFrame value).

(** What a job of the three loops is made of. *)
Lemma all_steps_job (lists : feature_lists) (j : job (value:=value)) :
  In (Job j) (all_steps training_df X X_shuffled lists) ->
  job_predictors j
  = match job_condition j with ShuffledData => X_shuffled | RealData => X end
  /\ ((exists features y_matrix,
         (features = a647_features lists \/ features = gold_features lists) /\
         select training_df features = Ok y_matrix /\
         job_target j = Matrix y_matrix)
      \/ (exists feature y,
            In feature (a647_features lists ++ gold_features lists) /\
            getcol training_df feature = Ok y /\
            job_target j = Vector y)).
Proof.
  unfold all_steps. cbn [flat_map]. rewrite app_nil_r, <- flat_map_app, !in_app_iff.
  intros [[Hin|Hin]|Hin].
  - unfold combined_steps in Hin. cbn [fst snd] in Hin.
    destruct (select training_df (a647_features lists)) as [y|e] eqn:Hy;
      [|destruct Hin as [|[]]; discriminate].
    destruct Hin as [[= <-]|[[= <-]|[]]]; (split; [reflexivity|]); left;
      exists (a647_features lists), y; auto.
  - unfold combined_steps in Hin. cbn [fst snd] in Hin.
    destruct (select training_df (gold_features lists)) as [y|e] eqn:Hy;
      [|destruct Hin as [|[]]; discriminate].
    destruct Hin as [[= <-]|[[= <-]|[]]]; (split; [reflexivity|]); left;
      exists (gold_features lists), y; auto.
  - apply in_flat_map in Hin as (f & Hf & Hin).
    unfold individual_steps in Hin.
    destruct (getcol training_df f) as [y|e] eqn:Hy;
      [|destruct Hin as [|[]]; discriminate].
    destruct Hin as [[= <-]|[[= <-]|[]]]; (split; [reflexivity|]); right;
      exists f, y; rewrite in_app_iff in *; eauto.
Qed.
End JobsOfTable.

(** The fits of a run come from the jobs of the three loops, on the two
    matrices of the run. *)
Lemma main_fit {value rng Model : Type}
    (random_interval : rng -> nat -> nat * rng)
    (search_fit : DataFrame value -> target value -> result Model)
    (dump_io : Model -> PurePath -> result unit)
    (training_df : DataFrame value) (s0 : rng)
    (c : condition) (predictors : DataFrame value) (y : target value) :
  In (Fit c predictors y)
    (log (main random_interval search_fit dump_io training_df (mk_world s0 [])).1) ->
  exists lists X X_shuffled (w : world value rng Model) j,
    categorize (column_names training_df) = Finished lists /\
    select training_df (nucleus_features lists) = Ok X /\
    generate_shuffled random_interval X (mk_world s0 []) = (w, Ok X_shuffled) /\
    In (Job j) (all_steps training_df X X_shuffled lists) /\
    c = job_condition j /\ predictors = job_predictors j /\ y = job_target j.
Proof.
  pose proof (main_steps random_interval search_fit dump_io training_df s0) as Hmain.
  destruct (categorize (column_names training_df)) as [lists|e st] eqn:Hcat.
  2: { rewrite Hmain. intros []. }
  destruct Hmain as (X & Xs & gen & s1 & Hsel & Hgen & Hshuf & ->).
  unfold after. cbn [fst log]. rewrite <- app_assoc. cbn [app].
  intros Hin. apply in_app_or in Hin as [Hin|[Hin|Hin]].
  - rewrite List.Forall_forall in Hshuf. specialize (Hshuf _ Hin). discriminate.
  - discriminate.
  - destruct (run_steps_events search_fit dump_io _ _ Hin) as (j & Hj & [Hev|[m Hev]]);
      [|discriminate].
    injection Hev as -> -> ->.
    exists lists, X, Xs, (mk_world s1 gen), j. repeat split; auto.
Qed.

(** X12.  On a table with one value per row in every column, every
    search of a run gets a predictor matrix and a target with the rows
    of the table: selecting the columns, copying and shuffling keep the
    row count, so predictors and target are aligned row for row in
    number. *)
Theorem fits_are_row_aligned
    {value rng Model : Type} (random_interval : rng -> nat -> nat * rng)
    (search_fit : DataFrame value -> target value -> result Model)
    (dump_io : Model -> PurePath -> result unit)
    (training_df : DataFrame value) (s0 : rng)
    (c : condition) (predictors : DataFrame value) (y : target value) :
  well_formed training_df ->
  In (Fit c predictors y)
    (log (main random_interval search_fit dump_io training_df (mk_world s0 [])).1) ->
  n_rows predictors = n_rows training_df /\
  well_formed predictors /\
  aligned (n_rows training_df) y.
Proof.
  intros Hwf Hin.
  destruct (main_fit _ _ _ _ _ _ _ _ Hin)
    as (lists & X & Xs & w & j & Hcat & Hsel & Hgen & Hj & -> & -> & ->).
  destruct (select_spec _ _ _ Hsel) as (_ & HnX & HwX).
  destruct (generate_shuffled_spec _ _ _ _ _ Hgen) as (_ & HnXs & HwXs).
  destruct (all_steps_job _ _ _ _ _ Hj) as [-> Hy].
  repeat split.
  - destruct (job_condition j); congruence.
  - destruct (job_condition j); auto.
  - destruct Hy as [(fl & ym & _ & Hym & ->)|(f & v & _ & Hv & ->)]; simpl.
    + destruct (select_spec _ _ _ Hym) as (_ & Hn & Hw). auto.
    + eapply getcol_length; eauto.
Qed.

Lemma fits_are_row_aligned_witness :
  n_rows (mk_frame 3 [("Cells_AreaShape_DAPI", [2; 1; 3])]) = n_rows example_table /\
  well_formed (mk_frame 3 [("Cells_AreaShape_DAPI", [2; 1; 3])]) /\
  aligned (n_rows example_table) (Vector [4; 5; 6]).
Proof.
  apply (fits_are_row_aligned counter_interval always_fit always_dump example_table 5
           ShuffledData).
  - unfold well_formed. vm_compute. repeat constructor.
  - vm_compute. do 12 right. left. reflexivity.
Defined.

(** X13.  No target leaks into the predictors: the predictor matrix of
    every search has exactly the columns of [nucleus_features], in that
    order, none of which is in [a647_features] or [gold_features]; the
    target of a combined search has exactly the columns of one of these
    two lists, and the target of an individual search is a column named
    in one of them. *)
Theorem predictors_are_the_nucleus_columns
    {value rng Model : Type} (random_interval : rng -> nat -> nat * rng)
    (search_fit : DataFrame value -> target value -> result Model)
    (dump_io : Model -> PurePath -> result unit)
    (training_df : DataFrame value) (s0 : rng)
    (c : condition) (predictors : DataFrame value) (y : target value) :
  In (Fit c predictors y)
    (log (main random_interval search_fit dump_io training_df (mk_world s0 [])).1) ->
  let lists := lists_of (categorize (column_names training_df)) in
  column_names predictors = nucleus_features lists /\
  (forall name, In name (column_names predictors) ->
     ~ In name (a647_features lists ++ gold_features lists)) /\
  match y with
  | Matrix y_matrix =>
      column_names y_matrix = a647_features lists \/
      column_names y_matrix = gold_features lists
  | Vector v =>
      exists feature,
        In feature (a647_features lists ++ gold_features lists) /\
        getcol training_df feature = Ok v
  end.
Proof.
  intros Hin.
  destruct (main_fit _ _ _ _ _ _ _ _ Hin)
    as (lists & X & Xs & w & j & Hcat & Hsel & Hgen & Hj & -> & -> & ->).
  rewrite Hcat. cbn [lists_of].
  destruct (select_spec _ _ _ Hsel) as (HcX & _ & _).
  destruct (generate_shuffled_spec _ _ _ _ _ Hgen) as (HcXs & _ & _).
  destruct (all_steps_job _ _ _ _ _ Hj) as [-> Hy].
  assert (column_names
            match job_condition j with
            | RealData => X
            | ShuffledData => Xs
            end = nucleus_features lists) as Hcols
    by (destruct (job_condition j); congruence).
  rewrite Hcols. repeat split.
  - intros name Hn Ht.
    pose proof (in_lists_placed (column_names training_df) name) as Hp.
    rewrite Hcat in Hp. cbn [lists_of] in Hp. destruct Hp as (Hpn & Hpa & Hpg).
    apply in_app_or in Ht as [Ht|Ht].
    + pose proof (placed_in_unique _ _ _ (Hpn Hn) (Hpa Ht)). discriminate.
    + pose proof (placed_in_unique _ _ _ (Hpn Hn) (Hpg Ht)). discriminate.
  - destruct Hy as [(fl & ym & Hfl & Hym & ->)|(f & v & Hf & Hv & ->)].
    + destruct (select_spec _ _ _ Hym) as (Hc & _ & _).
      destruct Hfl as [-> | ->]; auto.
    + eauto.
Qed.

Lemma predictors_are_the_nucleus_columns_witness :
  column_names (mk_frame 3 [("Cells_AreaShape_DAPI", [1; 2; 3])])
  = ["Cells_AreaShape_DAPI"] /\
  (forall name,
     In name (column_names (mk_frame 3 [("Cells_AreaShape_DAPI", [1; 2; 3])])) ->
     ~ In name (["Nuclei_Intensity_Mean_A647"] ++ ["Nuclei_Location_Center_GOLD"])) /\
  (column_names (mk_frame 3 [("Nuclei_Location_Center_GOLD", [7; 8; 9])])
   = ["Nuclei_Intensity_Mean_A647"] \/
   column_names (mk_frame 3 [("Nuclei_Location_Center_GOLD", [7; 8; 9])])
   = ["Nuclei_Location_Center_GOLD"]).
Proof.
  apply (predictors_are_the_nucleus_columns counter_interval always_fit
           always_dump example_table 5 RealData
           (mk_frame 3 [("Cells_AreaShape_DAPI", [1; 2; 3])])
           (Matrix (mk_frame 3 [("Nuclei_Location_Center_GOLD", [7; 8; 9])]))).
  vm_compute. do 6 right. left. reflexivity.
Defined.

(** ** What the files hold *)

Section Blocks.
Context {value Model : Type}.
Context (search_fit : DataFrame value -> target value -> result Model).
Context (dump_io : Model -> PurePath -> result unit).

(** In a step sequence that returns, two consecutive jobs leave their
    two fits and two dumps side by side. *)
Lemma run_steps_block (s1 s2 : list (step (value:=value))) (j1 j2 : job) :
  (run_steps search_fit dump_io (s1 ++ Job j1 :: Job j2 :: s2)).2 = Ok tt ->
  exists pre post m1 m2,
    (run_steps search_fit dump_io (s1 ++ Job j1 :: Job j2 :: s2)).1
    = pre ++ [Fit (job_condition j1) (job_predictors j1) (job_target j1);
              JoblibDump m1 (job_file j1);
              Fit (job_condition j2) (job_predictors j2) (job_target j2);
              JoblibDump m2 (job_file j2)] ++ post
    /\ search_fit (job_predictors j1) (job_target j1) = Ok m1
    /\ search_fit (job_predictors j2) (job_target j2) = Ok m2.
Proof.
  rewrite run_steps_app.
  destruct (run_steps search_fit dump_io s1) as [l1 [[]|e]]; [|discriminate].
  cbn [run_steps].
  destruct (search_fit (job_predictors j1) (job_target j1)) as [m1|e];
    [|discriminate].
  destruct (dump_io m1 (job_file j1)) as [[]|e]; [|discriminate].
  destruct (search_fit (job_predictors j2) (job_target j2)) as [m2|e];
    [|discriminate].
  destruct (dump_io m2 (job_file j2)) as [[]|e]; [|discriminate].
  destruct (run_steps search_fit dump_io s2) as [l2 r]. cbn [fst snd]. intros _.
  exists l1, l2, m1, m2. auto.
Qed.

Context (training_df X X_shuffled : DataFrame value).

Lemma individual_steps_split (features : list string) (feature : string) :
  In feature features ->
  exists s1 s2,
    flat_map (individual_steps training_df X X_shuffled) features
    = s1 ++ individual_steps training_df X X_shuffled feature ++ s2.
Proof.
  intros Hin. apply in_split in Hin as (l1 & l2 & ->).
  rewrite flat_map_app. cbn [flat_map]. eauto.
Qed.
End Blocks.

(** The block of an individual target in a run that ends normally. *)
Lemma individual_block
    {value rng Model : Type} (random_interval : rng -> nat -> nat * rng)
    (search_fit : DataFrame value -> target value -> result Model)
    (dump_io : Model -> PurePath -> result unit)
    (training_df : DataFrame value) (s0 : rng) (feature : string) :
  let run := main random_interval search_fit dump_io training_df (mk_world s0 []) in
  let lists := lists_of (categorize (column_names training_df)) in
  run.2 = Ok tt ->
  In feature (a647_features lists ++ gold_features lists) ->
  exists X X_shuffled y best best_shuffled pre post,
    select training_df (nucleus_features lists) = Ok X /\
    (generate_shuffled random_interval X
       (mk_world s0 (@nil (event value Model)))).2 = Ok X_shuffled /\
    getcol training_df feature = Ok y /\
    search_fit X (Vector y) = Ok best /\
    search_fit X_shuffled (Vector y) = Ok best_shuffled /\
    log run.1
    = pre ++ [Fit RealData X (Vector y);
              JoblibDump best
                (joinpath final_dir (feature +:+ "_tuned_model.joblib"));
              Fit ShuffledData X_shuffled (Vector y);
              JoblibDump best_shuffled
                (joinpath shuffled_dir
                   (feature +:+ "_shuffled_tuned_model.joblib"))] ++ post.
Proof.
  intros run lists. subst run lists.
  pose proof (main_steps random_interval search_fit dump_io training_df s0) as Hmain.
  destruct (categorize (column_names training_df)) as [lists|e st] eqn:Hcat.
  2: { rewrite Hmain. discriminate. }
  destruct Hmain as (X & Xs & gen & s1 & Hsel & Hgen & _ & ->).
  unfold after. cbn [fst snd log lists_of]. intros Hok Hin.
  destruct (getcol_ok training_df feature) as [y Hy].
  { apply lists_in_columns. rewrite Hcat. cbn [lists_of].
    apply in_app_iff. right. exact Hin. }
  destruct (individual_steps_split training_df X Xs _ _ Hin) as (t1 & t2 & Hsplit).
  assert (all_steps training_df X Xs lists
          = (flat_map (combined_steps training_df X Xs)
               [("A647", a647_features lists); ("GOLD", gold_features lists)]
             ++ t1)
            ++ Job (mk_job RealData X (Vector y)
                      (joinpath final_dir (feature +:+ "_tuned_model.joblib")))
            :: Job (mk_job ShuffledData Xs (Vector y)
                      (joinpath shuffled_dir
                         (feature +:+ "_shuffled_tuned_model.joblib")))
            :: t2) as Hall.
  { unfold all_steps. rewrite <- flat_map_app, Hsplit.
    unfold individual_steps. rewrite Hy, <- app_assoc. reflexivity. }
  rewrite Hall in Hok |- *.
  destruct (run_steps_block search_fit dump_io _ _ _ _ Hok)
    as (pre & post & m1 & m2 & -> & Hm1 & Hm2).
  exists X, Xs, y, m1, m2, ((gen ++ [YamlDump lists]) ++ pre), post.
  rewrite Hgen. cbn [snd job_condition job_predictors job_target job_file] in *.
  repeat split; auto. rewrite <- !app_assoc. reflexivity.
Qed.

(** X14.  In a run that ends normally, every individual target
    [feature] has its block in the log: the search on [X] with the
    column [feature] as target, the dump of the model it returned to
    [final_dir / "<feature>_tuned_model.joblib"], the search on
    [X_shuffled] with the same target, and the dump of its model to
    [shuffled_dir / "<feature>_shuffled_tuned_model.joblib"].  The file
    under [final] holds the model fit on the real predictors, the file
    under [shuffled_baseline] the one fit on the shuffled predictors. *)
Theorem individual_files_hold_their_models
    {value rng Model : Type} (random_interval : rng -> nat -> nat * rng)
    (search_fit : DataFrame value -> target value -> result Model)
    (dump_io : Model -> PurePath -> result unit)
    (training_df : DataFrame value) (s0 : rng) (feature : string) :
  let run := main random_interval search_fit dump_io training_df (mk_world s0 []) in
  let lists := lists_of (categorize (column_names training_df)) in
  run.2 = Ok tt ->
  In feature (a647_features lists ++ gold_features lists) ->
  exists X X_shuffled y best best_shuffled pre post,
    select training_df (nucleus_features lists) = Ok X /\
    (generate_shuffled random_interval X
       (mk_world s0 (@nil (event value Model)))).2 = Ok X_shuffled /\
    getcol training_df feature = Ok y /\
    search_fit X (Vector y) = Ok best /\
    search_fit X_shuffled (Vector y) = Ok best_shuffled /\
    log run.1
    = pre ++ [Fit RealData X (Vector y);
              JoblibDump best
                (joinpath final_dir (feature +:+ "_tuned_model.joblib"));
              Fit ShuffledData X_shuffled (Vector y);
              JoblibDump best_shuffled
                (joinpath shuffled_dir
                   (feature +:+ "_shuffled_tuned_model.joblib"))] ++ post.
Proof. apply individual_block. Qed.

Lemma individual_files_hold_their_models_witness :
  exists X X_shuffled y best best_shuffled pre post,
    select example_table ["Cells_AreaShape_DAPI"] = Ok X /\
    (generate_shuffled counter_interval X
       (mk_world 5 (@nil (event nat unit)))).2 = Ok X_shuffled /\
    getcol example_table "Nuclei_Location_Center_GOLD" = Ok y /\
    always_fit X (Vector y) = Ok best /\
    always_fit X_shuffled (Vector y) = Ok best_shuffled /\
    log (main counter_interval always_fit always_dump example_table (mk_world 5 [])).1
    = pre ++ [Fit RealData X (Vector y);
              JoblibDump best
                (joinpath final_dir
                   ("Nuclei_Location_Center_GOLD" +:+ "_tuned_model.joblib"));
              Fit ShuffledData X_shuffled (Vector y);
              JoblibDump best_shuffled
                (joinpath shuffled_dir
                   ("Nuclei_Location_Center_GOLD"
                      +:+ "_shuffled_tuned_model.joblib"))] ++ post.
Proof.
  apply (individual_files_hold_their_models counter_interval always_fit
           always_dump example_table 5 "Nuclei_Location_Center_GOLD").
  - vm_compute. reflexivity.
  - vm_compute. tauto.
Defined.


(** ** No file is written twice *)

Lemma string_app_inj_l (a x y : string) : a +:+ x = a +:+ y -> x = y.
Proof.
  induction a as [|c a IH]; [auto|].
  change (String c (a +:+ x) = String c (a +:+ y) -> x = y).
  intros [= H]. auto.
Qed.

Lemma string_app_inj_r (x y a : string) : x +:+ a = y +:+ a -> x = y.
Proof.
  revert y. induction x as [|c x IH]; intros [|d y] H.
  - reflexivity.
  - apply (f_equal String.length) in H. rewrite !length_string_app in H.
    simpl in H. lia.
  - apply (f_equal String.length) in H. rewrite !length_string_app in H.
    simpl in H. lia.
  - change (String c (x +:+ a) = String d (y +:+ a)) in H.
    injection H as -> H. f_equal. auto.
Qed.

Lemma individual_files_NoDup (features : list string) :
  Forall (fun f => contains "/" f = false) features ->
  NoDup features ->
  NoDup (flat_map individual_files features).
Proof.
  intros Hplain Hnd. rewrite individual_files_plain_all by exact Hplain.
  clear Hplain. induction Hnd as [|f rest Hf _ IH]; [constructor|].
  cbn [flat_map app]. apply NoDup_cons. split; [|apply NoDup_cons; split; [|exact IH]].
  - intros Hin. apply elem_of_cons in Hin as [Heq|Hin].
    + assert (startswith ("models/final/" +:+ f +:+ "_tuned_model.joblib")
                "models/f" = true) as H1 by reflexivity.
      rewrite Heq in H1. discriminate H1.
    + apply list_elem_of_In, in_flat_map in Hin as (g & Hg & [Heq|[Heq|[]]]).
      * apply string_app_inj_l, string_app_inj_r in Heq. subst g.
        apply Hf, list_elem_of_In, Hg.
      * assert (startswith ("models/final/" +:+ f +:+ "_tuned_model.joblib")
                  "models/f" = true) as H1 by reflexivity.
        rewrite <- Heq in H1. discriminate H1.
  - intros Hin.
    apply list_elem_of_In, in_flat_map in Hin as (g & Hg & [Heq|[Heq|[]]]).
    + assert (startswith ("models/final/" +:+ g +:+ "_tuned_model.joblib")
                "models/f" = true) as H1 by reflexivity.
      rewrite Heq in H1. discriminate H1.
    + apply string_app_inj_l, string_app_inj_r in Heq. subst g.
      apply Hf, list_elem_of_In, Hg.
Qed.

Lemma targets_NoDup (columns : list string) :
  NoDup columns ->
  let st := lists_of (categorize columns) in
  NoDup (a647_features st ++ gold_features st).
Proof.
  intros Hnd. unfold categorize. rewrite categorize_from_lists. simpl.
  apply NoDup_app. repeat split.
  - eapply (sublist_NoDup _ columns); [exact Hnd|].
    etrans; [apply filter_sublist | apply processed_sublist].
  - intros c H1%list_elem_of_In H2%list_elem_of_In.
    apply List.filter_In in H1 as [_ H1], H2 as [_ H2].
    pose proof (placed_in_unique _ _ _ H1 H2). discriminate.
  - eapply (sublist_NoDup _ columns); [exact Hnd|].
    etrans; [apply filter_sublist | apply processed_sublist].
Qed.

(** X16.  On a table with distinct column names, none of them with a
    slash, a run never writes two files of the same name: each target
    has files of its own, and the combined files are apart from them.
    No model written by the run is overwritten by the run. *)
Theorem no_file_written_twice
    {value rng Model : Type} (random_interval : rng -> nat -> nat * rng)
    (search_fit : DataFrame value -> target value -> result Model)
    (dump_io : Model -> PurePath -> result unit)
    (training_df : DataFrame value) (s0 : rng) :
  NoDup (column_names training_df) ->
  Forall (fun f => contains "/" f = false) (column_names training_df) ->
  NoDup (dumped_files
           (log (main random_interval search_fit dump_io training_df (mk_world s0 [])).1)).
Proof.
  intros Hnd Hplain.
  destruct (main_files_prefix random_interval search_fit dump_io training_df s0)
    as [k Hk].
  cbv zeta in Hk.
  assert (NoDup (dumped_files
                   (log (main random_interval search_fit dump_io training_df
                           (mk_world s0 [])).1) ++ k)) as H;
    [|apply NoDup_app in H; tauto].
  rewrite <- Hk. clear Hk k.
  pose proof (targets_NoDup _ Hnd) as Htargets. cbv zeta in Htargets.
  set (lists := lists_of (categorize (column_names training_df))) in *.
  assert (Forall (fun f => contains "/" f = false)
            (a647_features lists ++ gold_features lists)) as Hplain'.
  { apply List.Forall_forall. intros f Hf.
    rewrite List.Forall_forall in Hplain. apply Hplain.
    apply lists_in_columns. apply in_app_iff. right. exact Hf. }
  apply NoDup_app. repeat split.
  - refine (bool_decide_unpack _ _). vm_compute. exact I.
  - intros file Hfile Hin. apply list_elem_of_In in Hin.
    assert (In file (List.filter under_all_features
                       (flat_map individual_files
                          (a647_features lists ++ gold_features lists)))) as Hf.
    { apply List.filter_In. split; [exact Hin|].
      cbn [flat_map combined_files fst app] in Hfile.
      repeat (apply elem_of_cons in Hfile as [->|Hfile]; [reflexivity|]).
      inversion Hfile. }
    rewrite individual_files_elsewhere in Hf by exact Hplain'. destruct Hf.
  - apply individual_files_NoDup; assumption.
Qed.

Lemma no_file_written_twice_witness :
  NoDup (dumped_files
           (log (main counter_interval always_fit always_dump example_table (mk_world 5 [])).1)).
Proof.
  apply (no_file_written_twice counter_interval always_fit always_dump example_table 5).
  - refine (bool_decide_unpack _ _). vm_compute. exact I.
  - vm_compute. repeat constructor.
Defined.

(** ** The generation on short tables *)

Lemma shuffle_short {value rng : Type} (random_interval : rng -> nat -> nat * rng)
    (x : list value) (s : rng) :
  length x <= 1 -> np_random_shuffle random_interval x s = (x, s).
Proof.
  unfold np_random_shuffle. intros H.
  replace (length x - 1) with 0 by lia. reflexivity.
Qed.

(** X17.  On a predictor matrix of at most one row (an empty table in
    particular) the generation changes nothing: [X_shuffled] is [X], the
    generator is called once per column but draws nothing, so its state
    is left as it was. *)
Theorem generation_on_short_table
    {value rng Model : Type} (random_interval : rng -> nat -> nat * rng)
    (X : DataFrame value) (w : world value rng Model) :
  Forall (fun c => length (snd c) <= 1) (frame_columns X) ->
  generate_shuffled random_interval X w
  = (mk_world (rng_state w)
       (log w ++ map (fun c => NpShuffle (snd c)) (frame_columns X)),
     Ok X).
Proof.
  intros Hshort. unfold generate_shuffled, copy. destruct X as [n cols].
  cbn [frame_columns n_rows] in *.
  assert (shuffle_columns random_interval cols w
          = (mk_world (rng_state w)
               (log w ++ map (fun c => NpShuffle (snd c)) cols), Ok cols)) as Hcols.
  { revert w. induction Hshort as [|[col x] rest Hx _ IH]; intros w.
    - simpl. unfold ret. rewrite app_nil_r. destruct w; reflexivity.
    - cbn [shuffle_columns]. unfold sbind at 1, shuffle_values.
      rewrite (shuffle_short random_interval x (rng_state w) Hx).
      unfold sbind at 1. rewrite IH. unfold ret. cbn [rng_state log map snd].
      rewrite <- app_assoc. reflexivity. }
  unfold sbind. rewrite Hcols. reflexivity.
Qed.

Lemma generation_on_short_table_witness :
  generate_shuffled counter_interval one_row_table
    (mk_world 5 (@nil (event nat unit)))
  = (mk_world 5 [NpShuffle [1]; NpShuffle [2]], Ok one_row_table).
Proof.
  apply (generation_on_short_table counter_interval one_row_table
           (mk_world 5 (@nil (event nat unit)))).
  vm_compute. repeat constructor.
Defined.

(** ** The order of the table *)

Lemma filter_Permutation (f : string -> bool) (l l' : list string) :
  Permutation l l' -> Permutation (List.filter f l) (List.filter f l').
Proof.
  induction 1 as [|x l l' _ IH|x y l|l l' l'' _ IH1 _ IH2]; simpl.
  - constructor.
  - destruct (f x); [constructor|]; exact IH.
  - destruct (f x), (f y); try reflexivity. apply perm_swap.
  - etrans; eassumption.
Qed.

Lemma finished_lists (columns : list string) (st : feature_lists) :
  categorize columns = Finished st ->
  st = mk_lists (List.filter (placed_in Nucleus) columns)
         (List.filter (placed_in TargetA) columns)
         (List.filter (placed_in TargetB) columns).
Proof.
  intros Hfin.
  assert (st = lists_of (categorize columns)) as -> by (rewrite Hfin; reflexivity).
  unfold categorize in *.
  rewrite categorize_from_lists, (categorize_from_finished _ _ _ Hfin).
  reflexivity.
Qed.

(** X18.  The order of the table's columns only decides the order
    within the lists: on two tables with the same columns in different
    orders the loop finishes on both or on neither, and when it finishes
    each list of the one is a rearrangement of the same list of the
    other. *)
Theorem categorize_up_to_order (columns columns' : list string) :
  Permutation columns columns' ->
  ((exists st, categorize columns = Finished st) <->
   (exists st', categorize columns' = Finished st')) /\
  (forall st st',
     categorize columns = Finished st -> categorize columns' = Finished st' ->
     Permutation (nucleus_features st) (nucleus_features st') /\
     Permutation (a647_features st) (a647_features st') /\
     Permutation (gold_features st) (gold_features st')).
Proof.
  intros Hperm. split.
  - unfold categorize. rewrite !categorize_from_finished_iff.
    split; intros H;
      [eapply Permutation_Forall; [exact Hperm | exact H]
      |eapply Permutation_Forall; [symmetry; exact Hperm | exact H]].
  - intros st st' H H'.
    rewrite (finished_lists _ _ H), (finished_lists _ _ H'). simpl.
    auto using filter_Permutation.
Qed.

Lemma categorize_up_to_order_witness :
  ((exists st,
      categorize ["Cells_AreaShape_DAPI"; "Nuclei_Intensity_Mean_A647"]
      = Finished st) <->
   (exists st',
      categorize ["Nuclei_Intensity_Mean_A647"; "Cells_AreaShape_DAPI"]
      = Finished st')) /\
  (forall st st',
     categorize ["Cells_AreaShape_DAPI"; "Nuclei_Intensity_Mean_A647"]
     = Finished st ->
     categorize ["Nuclei_Intensity_Mean_A647"; "Cells_AreaShape_DAPI"]
     = Finished st' ->
     Permutation (nucleus_features st) (nucleus_features st') /\
     Permutation (a647_features st) (a647_features st') /\
     Permutation (gold_features st) (gold_features st')).
Proof.
  apply (categorize_up_to_order
           ["Cells_AreaShape_DAPI"; "Nuclei_Intensity_Mean_A647"]
           ["Nuclei_Intensity_Mean_A647"; "Cells_AreaShape_DAPI"]).
  apply perm_swap.
Defined.

(** ** The combined files *)

Lemma flat_map_In_split {A B : Type} (f : A -> list B) (l : list A) (a : A) :
  In a l -> exists s1 s2, flat_map f l = s1 ++ f a ++ s2.
Proof.
  intros Hin. apply in_split in Hin as (l1 & l2 & ->).
  rewrite flat_map_app. cbn [flat_map]. eauto.
Qed.

(** The block of a stain in a run that ends normally. *)
Lemma combined_block
    {value rng Model : Type} (random_interval : rng -> nat -> nat * rng)
    (search_fit : DataFrame value -> target value -> result Model)
    (dump_io : Model -> PurePath -> result unit)
    (training_df : DataFrame value) (s0 : rng)
    (stain_name : string) (feature_list : list string) :
  let run := main random_interval search_fit dump_io training_df (mk_world s0 []) in
  let lists := lists_of (categorize (column_names training_df)) in
  run.2 = Ok tt ->
  In (stain_name, feature_list)
    [("A647", a647_features lists); ("GOLD", gold_features lists)] ->
  exists X X_shuffled y_matrix best best_shuffled pre post,
    select training_df (nucleus_features lists) = Ok X /\
    (generate_shuffled random_interval X
       (mk_world s0 (@nil (event value Model)))).2 = Ok X_shuffled /\
    select training_df feature_list = Ok y_matrix /\
    search_fit X (Matrix y_matrix) = Ok best /\
    search_fit X_shuffled (Matrix y_matrix) = Ok best_shuffled /\
    log run.1
    = pre ++ [Fit RealData X (Matrix y_matrix);
              JoblibDump best
                (joinpath all_features_dir
                   ("combined_" +:+ stain_name +:+ "_tuned_model.joblib"));
              Fit ShuffledData X_shuffled (Matrix y_matrix);
              JoblibDump best_shuffled
                (joinpath all_features_dir
                   ("combined_" +:+ stain_name
                      +:+ "_shuffled_tuned_model.joblib"))] ++ post.
Proof.
  intros run lists. subst run lists.
  pose proof (main_steps random_interval search_fit dump_io training_df s0) as Hmain.
  destruct (categorize (column_names training_df)) as [lists|e st] eqn:Hcat.
  2: { rewrite Hmain. discriminate. }
  destruct Hmain as (X & Xs & gen & s1 & Hsel & Hgen & _ & ->).
  unfold after. cbn [fst snd log lists_of]. intros Hok Hin.
  destruct (select_ok training_df feature_list) as [ym Hym].
  { intros f Hf. apply lists_in_columns. rewrite Hcat. cbn [lists_of].
    apply in_app_iff. right. apply in_app_iff.
    destruct Hin as [[= _ <-]|[[= _ <-]|[]]]; auto. }
  destruct (flat_map_In_split (combined_steps training_df X Xs) _ _ Hin)
    as (t1 & t2 & Hsplit).
  assert (all_steps training_df X Xs lists
          = t1
            ++ Job (mk_job RealData X (Matrix ym)
                      (joinpath all_features_dir
                         ("combined_" +:+ stain_name +:+ "_tuned_model.joblib")))
            :: Job (mk_job ShuffledData Xs (Matrix ym)
                      (joinpath all_features_dir
                         ("combined_" +:+ stain_name
                            +:+ "_shuffled_tuned_model.joblib")))
            :: (t2 ++
                flat_map (individual_steps training_df X Xs) (a647_features lists) ++
                flat_map (individual_steps training_df X Xs) (gold_features lists)))
    as Hall.
  { unfold all_steps. rewrite Hsplit. unfold combined_steps at 1.
    cbn [fst snd]. rewrite Hym, <- !app_assoc. reflexivity. }
  rewrite Hall in Hok |- *.
  destruct (run_steps_block search_fit dump_io _ _ _ _ Hok)
    as (pre & post & m1 & m2 & -> & Hm1 & Hm2).
  exists X, Xs, ym, m1, m2, ((gen ++ [YamlDump lists]) ++ pre), post.
  rewrite Hgen. cbn [snd job_condition job_predictors job_target job_file] in *.
  repeat split; auto. rewrite <- !app_assoc. reflexivity.
Qed.

(** X19.  In a run that ends normally, each of the two stains has its
    block in the log: the search on [X] with all the columns of the
    stain's list as one target matrix, the dump of its model to
    [all_features_dir / "combined_<STAIN>_tuned_model.joblib"], the
    search on [X_shuffled] with the same target matrix, and the dump of
    its model to
    [all_features_dir / "combined_<STAIN>_shuffled_tuned_model.joblib"]. *)
Theorem combined_files_hold_their_models
    {value rng Model : Type} (random_interval : rng -> nat -> nat * rng)
    (search_fit : DataFrame value -> target value -> result Model)
    (dump_io : Model -> PurePath -> result unit)
    (training_df : DataFrame value) (s0 : rng)
    (stain_name : string) (feature_list : list string) :
  let run := main random_interval search_fit dump_io training_df (mk_world s0 []) in
  let lists := lists_of (categorize (column_names training_df)) in
  run.2 = Ok tt ->
  In (stain_name, feature_list)
    [("A647", a647_features lists); ("GOLD", gold_features lists)] ->
  exists X X_shuffled y_matrix best best_shuffled pre post,
    select training_df (nucleus_features lists) = Ok X /\
    (generate_shuffled random_interval X
       (mk_world s0 (@nil (event value Model)))).2 = Ok X_shuffled /\
    select training_df feature_list = Ok y_matrix /\
    search_fit X (Matrix y_matrix) = Ok best /\
    search_fit X_shuffled (Matrix y_matrix) = Ok best_shuffled /\
    log run.1
    = pre ++ [Fit RealData X (Matrix y_matrix);
              JoblibDump best
                (joinpath all_features_dir
                   ("combined_" +:+ stain_name +:+ "_tuned_model.joblib"));
              Fit ShuffledData X_shuffled (Matrix y_matrix);
              JoblibDump best_shuffled
                (joinpath all_features_dir
                   ("combined_" +:+ stain_name
                      +:+ "_shuffled_tuned_model.joblib"))] ++ post.
Proof. apply combined_block. Qed.

Lemma combined_files_hold_their_models_witness :
  exists X X_shuffled y_matrix best best_shuffled pre post,
    select example_table ["Cells_AreaShape_DAPI"] = Ok X /\
    (generate_shuffled counter_interval X
       (mk_world 5 (@nil (event nat unit)))).2 = Ok X_shuffled /\
    select example_table ["Nuclei_Location_Center_GOLD"] = Ok y_matrix /\
    always_fit X (Matrix y_matrix) = Ok best /\
    always_fit X_shuffled (Matrix y_matrix) = Ok best_shuffled /\
    log (main counter_interval always_fit always_dump example_table (mk_world 5 [])).1
    = pre ++ [Fit RealData X (Matrix y_matrix);
              JoblibDump best
                (joinpath all_features_dir
                   ("combined_" +:+ "GOLD" +:+ "_tuned_model.joblib"));
              Fit ShuffledData X_shuffled (Matrix y_matrix);
              JoblibDump best_shuffled
                (joinpath all_features_dir
                   ("combined_" +:+ "GOLD" +:+ "_shuffled_tuned_model.joblib"))]
      ++ post.
Proof.
  apply (combined_files_hold_their_models counter_interval always_fit
           always_dump example_table 5 "GOLD" ["Nuclei_Location_Center_GOLD"]).
  - vm_compute. reflexivity.
  - vm_compute. tauto.
Defined.

(** ** The files of a normal run and the models they hold *)




